(** * henVideoCompress: a shallow embedding of [main.py]

    The program walks a directory, probes every [.mp4]/[.mov] file, derives a
    filter chain from the rotation tag and the frame size, re-encodes the file
    and copies the modification time.  This development embeds the Python
    source as Rocq functions and states the properties of the planner, of the
    encode options and of the batch loop against that embedding.

    - Python [int] is [Z]; the only floating-point expression of the program,
      [int(width/1.5)], is modelled on IEEE binary64 with the Standard
      Library's [SpecFloat] (no axioms: plain integer arithmetic).
    - Python [dict]s are [gmap string _]; [list]s are [list].
    - Exceptions are a [result] type; everything outside the program (the
      file system, ffprobe/ffmpeg, the string built-ins) is an interface
      [Host] the program is parameterised by.
    - [print] and the encoder invocation are recorded in a trace. *)

From Stdlib Require Import ZArith Lia String Ascii List QArith Qround DecimalString.
From Stdlib Require Import Floats.SpecFloat.
From stdpp Require Import gmap strings list.
Close Scope Q_scope.
Open Scope Z_scope.

(* ===================================================================== *)
(** * Python values, exceptions *)
(* ===================================================================== *)

(** The built-in exception classes the program can meet.  All of them derive
    from [Exception]; none of them derives from [ffmpeg.Error]. *)
Inductive builtin_exc :=
| OSError | KeyError | ValueError | TypeError | AttributeError
| OverflowError | UnicodeDecodeError.

(** [ffmpeg.Error] carries the captured standard error of the child process:
    bytes, or [None] when the stream was not captured. *)
Inductive exn :=
| ffmpeg_Error (stderr : option string)
| Exc (cls : builtin_exc) (msg : string).

Inductive result (A : Type) :=
| Ok (a : A)
| Raise (e : exn).
Arguments Ok {A} a.
Arguments Raise {A} e.

Definition rbind {A B} (r : result A) (k : A -> result B) : result B :=
  match r with
  | Ok a => k a
  | Raise e => Raise e
  end.

Declare Scope py_scope.
Delimit Scope py_scope with py.
Notation "x <- r ;; k" := (rbind r (fun x => k))
  (at level 100, r at next level, right associativity) : py_scope.

(** The JSON values read from a probed stream: integers, strings, and the
    [tags] object, whose values ffprobe always renders as strings. *)
Inductive pyval :=
| PInt (z : Z)
| PStr (s : string)
| PDict (d : gmap string string).

(** [str(e)] *)
Definition exn_str (e : exn) : string :=
  match e with
  | ffmpeg_Error _ => "ffmpeg error (see stderr output for detail)"
  | Exc _ msg => msg
  end.

(** [str(n)] for an [int]: decimal digits, a leading [-] when negative. *)
Definition str_int (n : Z) : string := NilZero.string_of_int (Z.to_int n).

(* ===================================================================== *)
(** * Binary64 arithmetic for [int(width/1.5)] *)
(* ===================================================================== *)

Module PyFloat.

Definition prec : Z := 53.
Definition emax : Z := 1024.

(** The literal [1.5] = 3 * 2^51 * 2^-52. *)
Definition f1_5 : spec_float := S754_finite false 6755399441055744 (-52).

(** Conversion of an [int] operand to [float]: correctly rounded (ties to
    even); Python raises [OverflowError] where the rounding overflows. *)
Definition float_of_Z (z : Z) : spec_float := binary_normalize prec emax z 0 false.

Definition float_of_int (z : Z) : result spec_float :=
  match float_of_Z z with
  | S754_infinity _ => Raise (Exc OverflowError "int too large to convert to float")
  | f => Ok f
  end.

(** [x / y] on floats; the divisor of the program is never zero. *)
Definition truediv (x y : spec_float) : spec_float := SFdiv prec emax x y.

(** [int(x)] on a float: truncation toward zero. *)
Definition int_of_float (f : spec_float) : result Z :=
  match f with
  | S754_zero _ => Ok 0
  | S754_finite s m e => Ok (cond_Zopp s (Z.shiftl (Zpos m) e))
  | S754_infinity _ => Raise (Exc OverflowError "cannot convert float infinity to integer")
  | S754_nan => Raise (Exc ValueError "cannot convert float NaN to integer")
  end.

(** What rounding does to the quotient by [1.5], by the remainder mod 3. *)
Definition loc3 (rho : Z) : location :=
  if rho =? 0 then loc_Exact
  else if rho =? 1 then loc_Inexact Lt else loc_Inexact Gt.

End PyFloat.

(* ===================================================================== *)
(** * The planner: lines 40-50 of [process_video] *)
(* ===================================================================== *)

Open Scope py_scope.

(** [int(width/1.5)] *)
Definition target_width (width : Z) : result Z :=
  x <- PyFloat.float_of_int width ;;
  PyFloat.int_of_float (PyFloat.truediv x PyFloat.f1_5).

(** [rotation in (90, 270)] *)
Definition is_rotated (rotation : Z) : bool := (rotation =? 90) || (rotation =? 270).

(** [if is_rotated: width, height = height, width] *)
Definition corrected_dims (rotation width height : Z) : Z * Z :=
  if is_rotated rotation then (height, width) else (width, height).

(** [f"transpose={1 if rotation == 90 else 2}"] *)
Definition transpose_filter (rotation : Z) : string :=
  "transpose=" +:+ str_int (if rotation =? 90 then 1 else 2).

(** [f"scale={int(width/1.5)}:{height}:force_original_aspect_ratio=decrease"],
    with the first placeholder already evaluated. *)
Definition scale_filter (tw height : Z) : string :=
  "scale=" +:+ str_int tw +:+ ":" +:+ str_int height
  +:+ ":force_original_aspect_ratio=decrease".

(** Lines 46-50, on the corrected [width] and [height].  The truth value of an
    [int] is [rotation != 0]. *)
Definition vf_filters (rotation width height : Z) : result (list string) :=
  let vf := [] in
  let vf := if negb (rotation =? 0) then vf ++ [transpose_filter rotation] else vf in
  tw <- target_width width ;;
  Ok (vf ++ [scale_filter tw height]).

Record FilterPlan := {
  correctedWidth : Z;
  correctedHeight : Z;
  filters : list string
}.

(** Lines 40-50 as one function of the raw probe values. *)
Definition plan (rotation rawWidth rawHeight : Z) : result FilterPlan :=
  let '(width, height) := corrected_dims rotation rawWidth rawHeight in
  vf <- vf_filters rotation width height ;;
  Ok {| correctedWidth := width; correctedHeight := height; filters := vf |}.

(** ** The stage descriptors of the specification

    The specification speaks of a transpose stage with a direction and of a
    scale stage with an aspect policy; [render_stage] gives their ffmpeg
    spelling ([transpose=1] turns the frame 90 degrees clockwise,
    [transpose=2] counter-clockwise). *)
Inductive direction := Clockwise | CounterClockwise.
Inductive aspect_policy := Decrease.
Inductive stage :=
| Transpose (d : direction)
| Scale (w h : Z) (p : aspect_policy).

Definition render_stage (s : stage) : string :=
  match s with
  | Transpose Clockwise => "transpose=1"
  | Transpose CounterClockwise => "transpose=2"
  | Scale w h Decrease =>
      "scale=" +:+ str_int w +:+ ":" +:+ str_int h +:+ ":force_original_aspect_ratio=decrease"
  end.

(** The specification's [floor(correctedWidth / 1.5)], over the rationals. *)
Definition spec_target_width (correctedWidth : Z) : Z :=
  Qfloor (Qdiv (inject_Z correctedWidth) (Qmake 3 2)).

(** ** The planner claims as the specification states them *)

(** C1: at rotation 180 the chain is the scale stage alone. *)
Definition C1_as_stated : Prop :=
  forall W H p, plan 180 W H = Ok p ->
  exists w h, filters p = [render_stage (Scale w h Decrease)].


(** C5: for every positive width the target is the floor of the rational
    quotient, and smaller than the width. *)
Definition C5_as_stated : Prop :=
  forall correctedWidth, 0 < correctedWidth ->
  target_width correctedWidth = Ok (spec_target_width correctedWidth) /\
  spec_target_width correctedWidth < correctedWidth.

(* ===================================================================== *)
(** * The encode options: lines 53-67 *)
(* ===================================================================== *)

(** [output_kwargs], built from the joined filter chain, the flag and the
    probed creation time. *)
Definition output_kwargs (vf : string) (use_hwaccel : bool) (creation_time : string)
  : gmap string pyval :=
  <["metadata" := PStr ("creation_time=" +:+ creation_time)]>
  (<["c:a" := PStr "copy"]>
  (<["disposition:a" := PStr "0"]>
  (<["disposition:v" := PStr "0"]>
  (<["metadata:s:v" := PStr "rotate=0"]>
  (<["map_metadata" := PStr "0"]>
  (<["movflags" := PStr "+faststart"]>
  (<["preset" := PStr "fast"]>
  (<["crf" := PInt 18]>
  (<["c:v" := PStr (if use_hwaccel then "h264_qsv" else "libx264")]>
  (<["vf" := PStr vf]> ∅)))))))))).

(** [.global_args('-map_metadata', '0').global_args('-map', '0')] *)
Definition global_args : list string := ["-map_metadata"; "0"; "-map"; "0"].

(* ===================================================================== *)
(** * Pure helpers of the program *)
(* ===================================================================== *)

(** ** [is_video_file] (lines 19-21) *)

(** [str.lower] on the ASCII letters; other bytes are kept. *)
Definition lower_ascii (c : ascii) : ascii :=
  let n := nat_of_ascii c in
  if (65 <=? n)%nat && (n <=? 90)%nat then ascii_of_nat (n + 32) else c.

Fixpoint lower (s : string) : string :=
  match s with
  | EmptyString => EmptyString
  | String c s' => String (lower_ascii c) (lower s')
  end.

Definition endswith (s suffix : string) : bool :=
  let n := String.length s in
  let k := String.length suffix in
  (k <=? n)%nat && String.eqb (String.substring (n - k) k s) suffix.

Definition is_video_file (filepath : string) : bool :=
  let l := lower filepath in
  endswith l ".mp4" || endswith l ".mov".

(** ** The lines printed per file (lines 35, 110, 113, 115) *)
Definition line_processing (filename : string) : string :=
  "正在处理: " +:+ filename +:+ " -> 分辨率减半并压缩...".
Definition line_no_video (input_path : string) : string :=
  "警告: " +:+ input_path +:+ " 中没有视频流，跳过".
Definition line_failed (filename : string) : string := "失败: " +:+ filename.
Definition line_done (filename : string) : string := "完成: " +:+ filename.

(** ** Reading the probe result (lines 32-39) *)

(** [v == s] for a string literal [s] *)
Definition py_eq_str (v : pyval) (s : string) : bool :=
  match v with
  | PStr t => String.eqb t s
  | _ => false
  end.

(** [next((s for s in streams if s['codec_type'] == 'video'), None)]: the
    scan stops at the first video stream; a stream without [codec_type] met
    before that raises [KeyError]. *)
Fixpoint first_video_stream (streams : list (gmap string pyval))
  : result (option (gmap string pyval)) :=
  match streams with
  | [] => Ok None
  | s :: rest =>
      match s !! "codec_type" with
      | None => Raise (Exc KeyError "'codec_type'")
      | Some v => if py_eq_str v "video" then Ok (Some s) else first_video_stream rest
      end
  end.

(** [not video_stream]: [None] and the empty dict are false values. *)
Definition py_not (video_stream : option (gmap string pyval)) : bool :=
  match video_stream with
  | None => true
  | Some d => bool_decide (d = ∅)
  end.

(** [video_stream.get('tags', {})] *)
Definition get_tags (video_stream : gmap string pyval) : result (gmap string string) :=
  match video_stream !! "tags" with
  | None => Ok ∅
  | Some (PDict d) => Ok d
  | Some _ => Raise (Exc AttributeError "object has no attribute 'get'")
  end.

(** [video_stream.get('tags', {}).get('creation_time', '')] *)
Definition get_creation_time (video_stream : gmap string pyval) : result string :=
  tags <- get_tags video_stream ;;
  Ok (default "" (tags !! "creation_time")).

(* ===================================================================== *)
(** * The host: file system, ffprobe/ffmpeg and string built-ins *)
(* ===================================================================== *)

(** The result of [ffmpeg.probe]: a JSON object whose [streams] entry is a
    list of stream objects. *)
Record probe_output := { probe_streams : option (list (gmap string pyval)) }.

Class Host := {
  World : Type;
  (** a time stamp: a float number of seconds, only passed along *)
  Timestamp : Type;
  os_path_getmtime : string -> World -> result Timestamp * World;
  (** [os.stat(p)], reduced to [(st_atime, st_mtime)] *)
  os_stat : string -> World -> result (Timestamp * Timestamp) * World;
  os_utime : string -> Timestamp * Timestamp -> World -> result unit * World;
  os_listdir : string -> World -> result (list string) * World;
  (** [Path(p).mkdir(parents=True, exist_ok=True)] *)
  path_mkdir : string -> World -> result unit * World;
  os_path_join : string -> string -> string;
  ffmpeg_probe : string -> World -> result probe_output * World;
  (** [ffmpeg.input(i).output(o, **kwargs).global_args(..).run(overwrite_output=..)] *)
  ffmpeg_run : string -> string -> gmap string pyval -> list string -> bool ->
               World -> result unit * World;
  (** [int(s)] on a [str] *)
  int_of_str : string -> result Z;
  (** [b.decode('utf8')] *)
  bytes_decode_utf8 : string -> result string
}.

(** What an observer sees of a run: the printed lines and the encoder
    invocations, in order. *)
Inductive event :=
| EvPrint (line : string)
| EvRun (input_path output_path : string) (kwargs : gmap string pyval)
        (globals : list string) (overwrite_output : bool).

Section Program.
Context `{Host}.

Record state := { world : World; trace : list event }.

(** Computations: state passing with exceptions. *)
Definition M (A : Type) : Type := state -> result A * state.

Definition ret {A} (a : A) : M A := fun st => (Ok a, st).
Definition raise {A} (e : exn) : M A := fun st => (Raise e, st).
Definition bind {A B} (m : M A) (k : A -> M B) : M B :=
  fun st => match m st with
            | (Ok a, st') => k a st'
            | (Raise e, st') => (Raise e, st')
            end.
Definition lift_result {A} (r : result A) : M A := fun st => (r, st).
Definition call {A} (op : World -> result A * World) : M A :=
  fun st => let '(r, w) := op (world st) in
            (r, {| world := w; trace := trace st |}).
Definition emit (ev : event) : M unit :=
  fun st => (Ok tt, {| world := world st; trace := trace st ++ [ev] |}).
Definition print (line : string) : M unit := emit (EvPrint line).

(** [try: body  except Exception as e: handler e] *)
Definition try_except_Exception {A} (body : M A) (handler : exn -> M A) : M A :=
  fun st => match body st with
            | (Ok a, st') => (Ok a, st')
            | (Raise e, st') => handler e st'
            end.

(** [try: body  except ffmpeg.Error as e: handler e.stderr]; every other
    exception passes through. *)
Definition try_except_ffmpeg_Error {A} (body : M A) (handler : option string -> M A)
  : M A :=
  fun st => match body st with
            | (Ok a, st') => (Ok a, st')
            | (Raise (ffmpeg_Error stderr), st') => handler stderr st'
            | (Raise e, st') => (Raise e, st')
            end.

Notation "x <-- m ;; k" := (bind m (fun x => k))
  (at level 100, m at next level, right associativity).
Notation "m ;;; k" := (bind m (fun _ => k))
  (at level 100, right associativity).

(** ** [preserve_file_dates] (lines 10-17) *)
Definition preserve_file_dates (input_path output_path : string) : M unit :=
  try_except_Exception
    (stat <-- call (os_stat input_path) ;;
     call (os_utime output_path stat))
    (fun e => print ("警告: 无法保留文件时间属性 - " +:+ exn_str e)).

Definition get_video_files (input_dir : string) : M (list string) :=
  names <-- call (os_listdir input_dir) ;;
  ret (filter (fun f => is_video_file f = true) names).

(** ** [process_video] (lines 27-82) *)

(** [int(v)] *)
Definition py_int (v : pyval) : result Z :=
  match v with
  | PInt z => Ok z
  | PStr s => int_of_str s
  | PDict _ => Raise (Exc TypeError "int() argument must be a string or a number")
  end.

(** [int(video_stream[key])] *)
Definition int_field (video_stream : gmap string pyval) (key : string) : result Z :=
  match video_stream !! key with
  | None => Raise (Exc KeyError ("'" +:+ key +:+ "'"))
  | Some v => py_int v
  end.

(** [int(video_stream.get('tags', {}).get('rotate', 0))] *)
Definition get_rotation (video_stream : gmap string pyval) : result Z :=
  (tags <- get_tags video_stream ;;
   py_int (match tags !! "rotate" with
           | Some s => PStr s
           | None => PInt 0
           end))%py.

(** Lines 39-67: everything between the probe and the encoder call. *)
Definition build_kwargs (video_stream : gmap string pyval) (use_hwaccel : bool)
  : result (gmap string pyval) :=
  (rotation <- get_rotation video_stream ;;
   width <- int_field video_stream "width" ;;
   height <- int_field video_stream "height" ;;
   p <- plan rotation width height ;;
   creation_time <- get_creation_time video_stream ;;
   Ok (output_kwargs (String.concat "," (filters p)) use_hwaccel creation_time))%py.

(** The [except ffmpeg.Error as e] clause (lines 80-82);
    [e.stderr.decode] on [None] raises [AttributeError]. *)
Definition on_ffmpeg_Error (input_path : string) (stderr : option string) : M bool :=
  match stderr with
  | None => raise (Exc AttributeError "'NoneType' object has no attribute 'decode'")
  | Some b =>
      text <-- lift_result (bytes_decode_utf8 b) ;;
      print ("处理 " +:+ input_path +:+ " 时出错: " +:+ text) ;;;
      ret false
  end.

(** Lines 35-36. *)
Definition no_video_stream (input_path : string) : M bool :=
  print (line_no_video input_path) ;;;
  ret false.

(** The encoder invocation (lines 69-75) is recorded in the trace with its
    arguments before the host runs it. *)
Definition process_video (input_path output_path : string) (use_hwaccel : bool) : M bool :=
  try_except_ffmpeg_Error
    (original_mtime <-- call (os_path_getmtime input_path) ;;
     probe <-- call (ffmpeg_probe input_path) ;;
     streams <-- lift_result (match probe_streams probe with
                              | Some l => Ok l
                              | None => Raise (Exc KeyError "'streams'")
                              end) ;;
     video_stream <-- lift_result (first_video_stream streams) ;;
     match video_stream with
     | Some video_stream =>
         if py_not (Some video_stream) then no_video_stream input_path else
         kwargs <-- lift_result (build_kwargs video_stream use_hwaccel) ;;
         emit (EvRun input_path output_path kwargs global_args true) ;;;
         call (ffmpeg_run input_path output_path kwargs global_args true) ;;;
         call (os_utime output_path (original_mtime, original_mtime)) ;;;
         ret true
     | None => no_video_stream input_path
     end)
    (on_ffmpeg_Error input_path).

(** ** [main] (lines 84-117), after argument parsing *)

Record Args := { input_dir : string; output_dir : string; hwaccel : bool }.

(** The body of the [for] loop (lines 107-115), on the local variable
    [success_count] and the program state. *)
Definition loop_body (args : Args) (filename : string) (success_count : Z)
  : state -> result unit * (Z * state) :=
  fun st =>
    let input_path := os_path_join (input_dir args) filename in
    let output_path := os_path_join (output_dir args) filename in
    let '(_, st) := print (line_processing filename) st in
    match process_video input_path output_path (hwaccel args) st with
    | (Ok true, st) =>
        let '(_, st) := print (line_done filename) st in
        (Ok tt, (success_count + 1, st))
    | (Ok false, st) =>
        let '(_, st) := print (line_failed filename) st in
        (Ok tt, (success_count, st))
    | (Raise e, st) => (Raise e, (success_count, st))
    end.

(** [for filename in video_files: ...]; an exception leaves the loop. *)
Fixpoint main_loop (args : Args) (video_files : list string) (success_count : Z)
  : state -> result unit * (Z * state) :=
  fun st =>
    match video_files with
    | [] => (Ok tt, (success_count, st))
    | filename :: rest =>
        match loop_body args filename success_count st with
        | (Ok _, (success_count, st)) => main_loop args rest success_count st
        | (Raise e, cs) => (Raise e, cs)
        end
    end.

Definition newline : string := String "010"%char EmptyString.

(** Line 117. *)
Definition summary (success_count : Z) (video_files : list string) : string :=
  newline +:+ "处理完成! 成功处理 " +:+ str_int success_count +:+ "/"
  +:+ str_int (Z.of_nat (length video_files)) +:+ " 个文件".

Definition main (args : Args) : M unit :=
  call (path_mkdir (output_dir args)) ;;;
  video_files <-- get_video_files (input_dir args) ;;
  match video_files with
  | [] =>
      print ("错误: 输入目录 " +:+ input_dir args +:+ " 中没有找到视频文件(mp4/mov)")
  | _ =>
      print ("找到 " +:+ str_int (Z.of_nat (length video_files))
             +:+ " 个视频文件，开始处理...") ;;;
      print ("使用" +:+ (if hwaccel args then "硬件加速" else "软件编码") +:+ "模式") ;;;
      fun st =>
        match main_loop args video_files 0 st with
        | (Ok _, (success_count, st)) => print (summary success_count video_files) st
        | (Raise e, (_, st)) => (Raise e, st)
        end
  end.

(** The loop body processes [filename] and counts it as a success. *)
Definition counted (args : Args) (filename : string) (c : Z) (st : state) : Prop :=
  fst (loop_body args filename c st) = Ok tt /\
  fst (snd (loop_body args filename c st)) = c + 1.

(** The program state the loop body leaves. *)
Definition state_after (args : Args) (filename : string) (c : Z) (st : state) : state :=
  snd (snd (loop_body args filename c st)).

(** A stream object that carries a [codec_type] other than ['video']. *)
Definition not_video (s : gmap string pyval) : Prop :=
  exists v, s !! "codec_type" = Some v /\ py_eq_str v "video" = false.

(** ** Observations on traces *)

(** [st'] continues the trace of [st], and every added event satisfies [P]. *)
Definition extends (P : event -> Prop) (st st' : state) : Prop :=
  exists evs, trace st' = trace st ++ evs /\ Forall P evs.

(** Every run of [m] only adds events that satisfy [P]. *)
Definition preserves {A} (P : event -> Prop) (m : M A) : Prop :=
  forall st, extends P st (snd (m st)).

End Program.

(** The encoder is only ever invoked with options that satisfy [Q]. *)
Definition runs_with (Q : gmap string pyval -> Prop) (ev : event) : Prop :=
  match ev with
  | EvRun _ _ kwargs _ _ => Q kwargs
  | EvPrint _ => True
  end.

(** The events of one [process_video] call: prints, and encoder invocations
    whose options are an [output_kwargs] for the caller's flag. *)
Definition built_for (hw : bool) : event -> Prop :=
  runs_with (fun kwargs => exists vf ct, kwargs = output_kwargs vf hw ct).

(** The encoder invocations of a trace: input, output, and the filter chain,
    the video codec and the rotation tag of the options. *)
Definition encoder_calls (t : list event)
  : list (string * string * option pyval * option pyval * option pyval) :=
  omap (fun ev => match ev with
                  | EvRun i o kwargs _ _ =>
                      Some (i, o, kwargs !! "vf", kwargs !! "c:v", kwargs !! "metadata:s:v")
                  | EvPrint _ => None
                  end) t.

(** The printed lines of a trace. *)
Definition printed (t : list event) : list string :=
  omap (fun ev => match ev with EvPrint l => Some l | _ => None end) t.

(** ** Further observations *)

(** Line 81, with the decoded standard error. *)
Definition line_error (input_path text : string) : string :=
  "处理 " +:+ input_path +:+ " 时出错: " +:+ text.

(** The options every encoder invocation carries, whatever the input
    (lines 56-64). *)
Definition fixed_policy (kwargs : gmap string pyval) : Prop :=
  kwargs !! "crf" = Some (PInt 18) /\
  kwargs !! "preset" = Some (PStr "fast") /\
  kwargs !! "movflags" = Some (PStr "+faststart") /\
  kwargs !! "c:a" = Some (PStr "copy") /\
  kwargs !! "map_metadata" = Some (PStr "0") /\
  kwargs !! "disposition:v" = Some (PStr "0") /\
  kwargs !! "disposition:a" = Some (PStr "0").

(** The events one [process_video] call may add, by its result: [True] comes
    with the encoder invocation alone, [False] with exactly one printed line
    (the reason), an exception with no printed line. *)
Definition outcome_events (input_path output_path : string)
    (r : result bool) (evs : list event) : Prop :=
  match r with
  | Ok true => exists kwargs, evs = [EvRun input_path output_path kwargs global_args true]
  | Ok false =>
      evs = [EvPrint (line_no_video input_path)] \/
      (exists text, evs = [EvPrint (line_error input_path text)]) \/
      (exists kwargs text,
         evs = [EvRun input_path output_path kwargs global_args true;
                EvPrint (line_error input_path text)])
  | Raise _ =>
      evs = [] \/
      exists kwargs, evs = [EvRun input_path output_path kwargs global_args true]
  end.

(** The last line the loop prints for a file (lines 113, 115). *)
Definition verdict (ok : bool) (filename : string) : string :=
  if ok then line_done filename else line_failed filename.

(** What the loop adds to the trace for one file, given the result and the
    events of its [process_video] call. *)
Definition file_block (filename : string) (r : bool * list event) : list event :=
  EvPrint (line_processing filename) :: snd r ++ [EvPrint (verdict (fst r) filename)].

Definition successes (rs : list (bool * list event)) : Z :=
  Z.of_nat (length (filter (fun r => fst r = true) rs)).

Section Observations.
Context `{Host}.

(** An encoder invocation of a batch: input and output carry the same video
    file name, under the two directories, with the fixed arguments. *)
Definition run_on_video (args : Args) (ev : event) : Prop :=
  match ev with
  | EvPrint _ => True
  | EvRun i o kwargs globals overwrite =>
      (exists f, is_video_file f = true /\
                 i = os_path_join (input_dir args) f /\
                 o = os_path_join (output_dir args) f) /\
      globals = global_args /\ overwrite = true /\ fixed_policy kwargs
  end.

(** An encoder invocation of one [process_video] call. *)
Definition run_of (input_path output_path : string) (ev : event) : Prop :=
  match ev with
  | EvPrint _ => True
  | EvRun i o kwargs globals overwrite =>
      i = input_path /\ o = output_path /\
      globals = global_args /\ overwrite = true /\ fixed_policy kwargs
  end.

End Observations.

(* ===================================================================== *)
(** * A concrete host, to run the program on examples *)
(* ===================================================================== *)

Module Demo.

(** A decimal reader for [int(s)]: an optional sign, then digits. *)
Fixpoint digits_value (s : string) (acc : Z) : option Z :=
  match s with
  | EmptyString => Some acc
  | String c s' =>
      let n := nat_of_ascii c in
      if (48 <=? n)%nat && (n <=? 57)%nat
      then digits_value s' (10 * acc + Z.of_nat (n - 48))
      else None
  end.

Definition invalid_literal {A} : result A :=
  Raise (Exc ValueError "invalid literal for int() with base 10").

Definition unsigned_of_str (s : string) : result Z :=
  match s with
  | EmptyString => invalid_literal
  | _ => match digits_value s 0 with
         | Some z => Ok z
         | None => invalid_literal
         end
  end.

Definition decimal_of_str (s : string) : result Z :=
  match s with
  | String "-" s' => z <- unsigned_of_str s' ;; Ok (- z)
  | String "+" s' => unsigned_of_str s'
  | _ => unsigned_of_str s
  end.

Definition audio_stream : gmap string pyval :=
  <["codec_type" := PStr "audio"]> ∅.

Definition video_stream (width height : Z) (tags : gmap string string)
  : gmap string pyval :=
  <["tags" := PDict tags]>
  (<["height" := PInt height]>
  (<["width" := PInt width]>
  (<["codec_type" := PStr "video"]> ∅))).

Definition portrait_tags : gmap string string :=
  <["creation_time" := "2024-05-01T10:00:00.000000Z"]> (<["rotate" := "90"]> ∅).

Definition probe_table (path : string) : result probe_output :=
  if endswith path "/clip.mp4" then
    Ok {| probe_streams := Some [audio_stream; video_stream 1920 1080 portrait_tags] |}
  else if endswith path "/voice.mov" then
    Ok {| probe_streams := Some [audio_stream] |}
  else if endswith path "/locked.mp4" then
    Ok {| probe_streams := Some [video_stream 1920 1080 ∅] |}
  else Raise (ffmpeg_Error (Some "No such file or directory")).

Definition listdir_table (dir : string) : result (list string) :=
  if String.eqb dir "in" then Ok ["voice.mov"; "notes.txt"; "clip.mp4"]
  else if String.eqb dir "in1" then Ok ["clip.mp4"; "voice.mov"]
  else if String.eqb dir "in2" then Ok ["locked.mp4"]
  else Ok [].

(** Setting the times of [out/locked.mp4] is refused. *)
Definition utime_table (path : string) : result unit :=
  if String.eqb path "out/locked.mp4"
  then Raise (Exc OSError "[Errno 13] Permission denied: 'out/locked.mp4'")
  else Ok tt.

Definition host : Host := {|
  World := unit;
  Timestamp := Z;
  os_path_getmtime := fun _ w => (Ok 1714557600, w);
  os_stat := fun _ w => (Ok (1714557600, 1714557600), w);
  os_utime := fun p _ w => (utime_table p, w);
  os_listdir := fun d w => (listdir_table d, w);
  path_mkdir := fun _ w => (Ok tt, w);
  os_path_join := fun a b => a +:+ "/" +:+ b;
  ffmpeg_probe := fun p w => (probe_table p, w);
  ffmpeg_run := fun _ _ _ _ _ w => (Ok tt, w);
  int_of_str := decimal_of_str;
  bytes_decode_utf8 := fun b => Ok b
|}.

Definition start : @state host := @Build_state host tt [].

Definition args (dir : string) : Args :=
  {| input_dir := dir; output_dir := "out"; hwaccel := false |}.

End Demo.

(** A second host: probes that show a stream without [width] or fail, an
    encoder that fails on one file (line 74 runs it without capturing the
    standard error, so its [ffmpeg.Error] carries [None]), a directory without
    video files. *)
Module Faulty.

Definition stream_without_width : gmap string pyval :=
  <["height" := PInt 1080]> (<["codec_type" := PStr "video"]> ∅).

Definition probe_table (path : string) : result probe_output :=
  if endswith path "/nowidth.mp4" then
    Ok {| probe_streams := Some [stream_without_width] |}
  else if endswith path "/corrupt.mp4" then
    Raise (ffmpeg_Error (Some "moov atom not found"))
  else Ok {| probe_streams := Some [Demo.audio_stream; Demo.video_stream 1920 1080 ∅] |}.

Definition run_table (input_path : string) : result unit :=
  if endswith input_path "/silent.mp4" then Raise (ffmpeg_Error None)
  else Ok tt.

Definition listdir_table (dir : string) : result (list string) :=
  if String.eqb dir "docs" then Ok ["notes.txt"; "song.mp3"; "mp4"]
  else Ok ["good.mp4"; "silent.mp4"; "later.mov"].

Definition host : Host := {|
  World := unit;
  Timestamp := Z;
  os_path_getmtime := fun _ w => (Ok 1714557600, w);
  os_stat := fun _ w => (Ok (1714557000, 1714557600), w);
  os_utime := fun _ _ w => (Ok tt, w);
  os_listdir := fun d w => (listdir_table d, w);
  path_mkdir := fun _ w => (Ok tt, w);
  os_path_join := fun a b => a +:+ "/" +:+ b;
  ffmpeg_probe := fun p w => (probe_table p, w);
  ffmpeg_run := fun i _ _ _ _ w => (run_table i, w);
  int_of_str := Demo.decimal_of_str;
  bytes_decode_utf8 := fun b => Ok b
|}.

Definition start : @state host := @Build_state host tt [].

End Faulty.

(* ===================================================================== *)
(** * Facts: binary64 division by 1.5 *)
(* ===================================================================== *)

Module PyFloatFacts.
Import PyFloat.

Ltac dlia := Z.div_mod_to_equations; lia.

Lemma digits2_pos_size p : digits2_pos p = Pos.size p.
Proof. induction p; simpl; congruence. Qed.

Lemma Zdigits2_bounds p :
  2 ^ (Zpos (digits2_pos p) - 1) <= Zpos p < 2 ^ Zpos (digits2_pos p).
Proof.
  rewrite digits2_pos_size. split.
  - pose proof (Pos.size_le p) as H.
    assert (Zpos (2 ^ Pos.size p) <= Zpos p~0) as H' by exact H.
    rewrite Pos2Z.inj_pow in H'.
    replace (Zpos (Pos.size p)) with (Zpos (Pos.size p) - 1 + 1) in H' by lia.
    rewrite Z.pow_add_r in H' by lia. lia.
  - pose proof (Pos.size_gt p) as H.
    assert (Zpos p < Zpos (2 ^ Pos.size p)) as H' by exact H.
    now rewrite Pos2Z.inj_pow in H'.
Qed.

Lemma Zdigits2_unique m d :
  0 < d -> 2 ^ (d - 1) <= m < 2 ^ d -> Zdigits2 m = d.
Proof.
  intros Hd [Hlo Hhi].
  assert (0 < m) as Hm by (pose proof (Z.pow_pos_nonneg 2 (d - 1)); lia).
  destruct m as [|p|p]; try lia. simpl.
  pose proof (Zdigits2_bounds p) as [Blo Bhi].
  set (s := Zpos (digits2_pos p)) in *.
  destruct (Z.lt_trichotomy s d) as [Hlt|[Heq|Hgt]]; [|exact Heq|].
  - assert (2 ^ s <= 2 ^ (d - 1)) by (apply Z.pow_le_mono_r; lia). lia.
  - assert (2 ^ d <= 2 ^ (s - 1)) by (apply Z.pow_le_mono_r; lia). lia.
Qed.

Lemma iter_xO_pow2 m d : Zpos (Pos.iter xO m d) = Zpos m * 2 ^ Zpos d.
Proof.
  induction d using Pos.peano_ind.
  - simpl. lia.
  - rewrite Pos.iter_succ, Pos2Z.inj_xO, IHd, Pos2Z.inj_succ, Z.pow_succ_r by lia. lia.
Qed.

Lemma pow2_scale_bounds w d k :
  0 < d -> 0 <= k -> 2 ^ (d - 1) <= w < 2 ^ d ->
  2 ^ (d + k - 1) <= w * 2 ^ k < 2 ^ (d + k).
Proof.
  intros Hd Hk Hw.
  replace (d + k - 1) with ((d - 1) + k) by lia.
  rewrite !Z.pow_add_r by lia.
  assert (0 < 2 ^ k) by (apply Z.pow_pos_nonneg; lia). nia.
Qed.

Lemma loc_of_shr_record_of_loc m l :
  loc_of_shr_record (shr_record_of_loc m l) = l.
Proof. destruct l as [|[]]; reflexivity. Qed.

Lemma shr_m_of_loc m l : shr_m (shr_record_of_loc m l) = m.
Proof. destruct l as [|[]]; reflexivity. Qed.

Lemma shr_fexp_keep m e l :
  Zdigits2 m = 53 -> -1074 <= e ->
  shr_fexp prec emax m e l = (shr_record_of_loc m l, e).
Proof.
  intros Hd He. unfold shr_fexp, fexp, emin, prec, emax. rewrite Hd.
  replace (Z.max (53 + e - 53) (3 - 1024 - 53) - e) with 0 by lia.
  reflexivity.
Qed.

Lemma shr_fexp_one m e l :
  Zdigits2 m = 54 -> -1075 <= e ->
  shr_fexp prec emax m e l = (shr_1 (shr_record_of_loc m l), e + 1).
Proof.
  intros Hd He. unfold shr_fexp, fexp, emin, prec, emax. rewrite Hd.
  replace (Z.max (54 + e - 53) (3 - 1024 - 53) - e) with 1 by lia.
  reflexivity.
Qed.

(** Rounding a 53-digit mantissa that stays within 53 digits. *)
Lemma binary_round_aux_keep sx mx ex lx :
  Zdigits2 mx = 53 -> -1074 <= ex <= 971 ->
  0 < round_nearest_even mx lx ->
  Zdigits2 (round_nearest_even mx lx) = 53 ->
  binary_round_aux prec emax sx mx ex lx =
  S754_finite sx (Z.to_pos (round_nearest_even mx lx)) ex.
Proof.
  intros Hd He Hpos Hd'. unfold binary_round_aux.
  rewrite shr_fexp_keep by (auto; lia).
  rewrite shr_m_of_loc, loc_of_shr_record_of_loc.
  rewrite shr_fexp_keep by (auto; lia). simpl shr_m.
  destruct (round_nearest_even mx lx) as [|p|p]; try lia.
  unfold emax, prec. replace (ex <=? 1024 - 53) with true by (symmetry; apply Z.leb_le; lia).
  reflexivity.
Qed.

Lemma binary_round_aux_shift sx mx ex lx :
  Zdigits2 mx = 54 -> -1075 <= ex <= 970 ->
  let mrs := shr_1 (shr_record_of_loc mx lx) in
  let m' := round_nearest_even (shr_m mrs) (loc_of_shr_record mrs) in
  0 < m' -> Zdigits2 m' = 53 ->
  binary_round_aux prec emax sx mx ex lx = S754_finite sx (Z.to_pos m') (ex + 1).
Proof.
  intros Hd He mrs m' Hpos Hd'. unfold binary_round_aux.
  rewrite shr_fexp_one by (auto; lia). fold mrs. fold m'.
  rewrite shr_fexp_keep by (auto; lia). simpl shr_m.
  destruct m' as [|p|p]; try lia.
  unfold emax, prec. replace (ex + 1 <=? 1024 - 53) with true by (symmetry; apply Z.leb_le; lia).
  reflexivity.
Qed.

Lemma float_of_Z_exact w d :
  0 < d <= 53 -> 2 ^ (d - 1) <= w < 2 ^ d ->
  float_of_Z w = S754_finite false (Z.to_pos (w * 2 ^ (53 - d))) (d - 53).
Proof.
  intros Hd Hw.
  assert (0 < w) as Hpos by (pose proof (Z.pow_pos_nonneg 2 (d - 1)); lia).
  destruct w as [|p|p]; try lia.
  unfold float_of_Z, binary_normalize, binary_round.
  assert (Zpos (digits2_pos p) = d) as Hdig by (apply (Zdigits2_unique (Zpos p)); lia).
  rewrite Hdig. unfold shl_align, fexp, emin, prec, emax.
  replace (Z.max (d + 0 - 53) (3 - 1024 - 53)) with (d - 53) by lia.
  rewrite Z.sub_0_r.
  assert (Hmant: forall m, Zpos m = Zpos p * 2 ^ (53 - d) ->
     binary_round_aux 53 1024 false (Zpos m) (d - 53) loc_Exact =
     S754_finite false m (d - 53)).
  { intros m Hm.
    assert (Zdigits2 (Zpos m) = 53) as H53.
    { apply Zdigits2_unique; [lia|]. rewrite Hm.
      pose proof (pow2_scale_bounds (Zpos p) d (53 - d)) as B.
      replace (d + (53 - d)) with 53 in B by lia. apply B; lia. }
    pose proof (binary_round_aux_keep false (Zpos m) (d - 53) loc_Exact) as R.
    unfold prec, emax in R. rewrite R; simpl round_nearest_even; auto; lia. }
  destruct (d - 53) as [|q|q] eqn:E; try lia.
  - rewrite Hmant; [|replace (53 - d) with 0 by lia; lia].
    f_equal. replace (53 - d) with 0 by lia. rewrite Z.mul_1_r. reflexivity.
  - rewrite Hmant.
    + f_equal. replace (53 - d) with (Zpos q) by lia.
      rewrite <- iter_xO_pow2. reflexivity.
    + rewrite iter_xO_pow2. f_equal. f_equal. lia.
Qed.

Lemma SFdiv_core_1_5 mx e :
  2 ^ 52 <= Zpos mx < 2 ^ 53 -> -1073 <= e ->
  SFdiv_core_binary prec emax (Zpos mx) e 6755399441055744 (-52) =
  ((4 * Zpos mx) / 3, e - 1, loc3 ((4 * Zpos mx) mod 3)).
Proof.
  intros HM He. unfold SFdiv_core_binary.
  rewrite (Zdigits2_unique (Zpos mx) 53) by lia.
  replace (Zdigits2 6755399441055744) with 53 by reflexivity.
  unfold fexp, emin, prec, emax.
  replace (Z.min (Z.max (53 + e - (53 + -52) - 53) (3 - 1024 - 53)) (e - -52))
    with (e - 1) by lia.
  replace (e - -52 - (e - 1)) with 53 by lia.
  rewrite Z.shiftl_mul_pow2 by lia.
  assert (Zpos mx * 2 ^ 53 = (4 * Zpos mx) * 2 ^ 51) as -> by lia.
  change 6755399441055744 with (3 * 2 ^ 51).
  pose proof (Z.div_eucl_eq (4 * Zpos mx * 2 ^ 51) (3 * 2 ^ 51)) as Heq.
  pose proof (Z.mod_pos_bound (4 * Zpos mx * 2 ^ 51) (3 * 2 ^ 51)) as Hb.
  unfold Z.modulo in Hb.
  assert ((4 * Zpos mx * 2 ^ 51) / (3 * 2 ^ 51) = (4 * Zpos mx) / 3) as Hq
    by (apply Z.div_mul_cancel_r; lia).
  assert ((4 * Zpos mx * 2 ^ 51) mod (3 * 2 ^ 51) = ((4 * Zpos mx) mod 3) * 2 ^ 51) as Hr
    by (apply Z.mul_mod_distr_r; lia).
  unfold Z.div in Hq. unfold Z.modulo in Hr at 1.
  destruct (Z.div_eucl (4 * Zpos mx * 2 ^ 51) (3 * 2 ^ 51)) as [q r].
  subst q r. f_equal.
  pose proof (Z.mod_pos_bound (4 * Zpos mx) 3) as Hrho.
  set (rho := (4 * Zpos mx) mod 3) in *.
  assert (rho = 0 \/ rho = 1 \/ rho = 2) as [-> | [-> | ->]] by lia; reflexivity.
Qed.

Lemma shr_1_pos m r s :
  0 < m -> shr_1 (Build_shr_record m r s) = Build_shr_record (m / 2) (Z.odd m) (r || s).
Proof.
  intros Hm. destruct m as [|[p|p|]|p]; try lia; simpl shr_1; f_equal.
  - rewrite Pos2Z.inj_xI. apply Z.div_unique with 1; lia.
  - rewrite Pos2Z.inj_xO. apply Z.div_unique with 0; lia.
Qed.

Lemma div_between a b q : 0 < b -> q * b <= a < (q + 1) * b -> a / b = q.
Proof. intros Hb H. symmetry. apply Z.div_unique with (a - q * b); lia. Qed.

Lemma SFdiv_1_5_round mx e :
  2 ^ 52 <= Zpos mx < 2 ^ 53 -> -52 <= e <= 0 ->
  exists m' e', SFdiv prec emax (S754_finite false mx e) f1_5 = S754_finite false m' e' /\
    let q := (4 * Zpos mx) / 3 in
    let rho := (4 * Zpos mx) mod 3 in
    if q <? 2 ^ 53 then
      e' = e - 1 /\ Zpos m' = q + (if rho =? 2 then 1 else 0)
    else
      e' = e /\
      Zpos m' = q / 2 + (if Z.odd q && (negb (rho =? 0) || Z.odd (q / 2)) then 1 else 0).
Proof.
  intros HM He. unfold SFdiv, f1_5.
  rewrite SFdiv_core_1_5 by lia. simpl xorb.
  pose proof (Z.mod_pos_bound (4 * Zpos mx) 3) as Hrho.
  pose proof (Z.div_mod (4 * Zpos mx) 3) as Hdm.
  set (q := (4 * Zpos mx) / 3) in *. set (rho := (4 * Zpos mx) mod 3) in *.
  cbv zeta. destruct (Z.ltb_spec q (2 ^ 53)) as [Hq|Hq].
  - assert (Zdigits2 q = 53) as Hd by (apply Zdigits2_unique; lia).
    assert (round_nearest_even q (loc3 rho) = q + (if rho =? 2 then 1 else 0)) as Hr.
    { assert (rho = 0 \/ rho = 1 \/ rho = 2) as [-> | [-> | ->]] by lia; simpl; lia. }
    assert (2 ^ 52 <= round_nearest_even q (loc3 rho) < 2 ^ 53) as Hb.
    { rewrite Hr. destruct (Z.eqb_spec rho 2); lia. }
    rewrite binary_round_aux_keep; try lia.
    + eexists _, _. split; [reflexivity|]. split; [lia|].
      rewrite Z2Pos.id by lia. exact Hr.
    + apply Zdigits2_unique; lia.
  - assert (Zdigits2 q = 54) as Hd by (apply Zdigits2_unique; lia).
    set (mrs := shr_1 (shr_record_of_loc q (loc3 rho))).
    set (m1 := round_nearest_even (shr_m mrs) (loc_of_shr_record mrs)).
    assert (m1 = q / 2 + (if Z.odd q && (negb (rho =? 0) || Z.odd (q / 2)) then 1 else 0)) as Hm1.
    { unfold m1, mrs.
      assert (rho = 0 \/ rho = 1 \/ rho = 2) as [-> | [-> | ->]] by lia;
        simpl loc3; simpl shr_record_of_loc; rewrite shr_1_pos by lia;
        simpl shr_m; destruct (Z.odd q) eqn:Eo; simpl; try lia;
        rewrite <- Z.negb_odd; destruct (Z.odd (q / 2)); simpl; lia. }
    assert (2 ^ 52 <= m1 < 2 ^ 53) as Hb.
    { rewrite Hm1. clear Hm1. clearbody m1 mrs q rho.
      destruct (Z.odd q && _); dlia. }
    pose proof (binary_round_aux_shift false q (e - 1) (loc3 rho)) as R.
    cbv zeta in R. fold mrs in R. fold m1 in R.
    rewrite R; try lia.
    + eexists _, _. split; [reflexivity|]. split; [lia|].
      rewrite Z2Pos.id by lia. exact Hm1.
    + apply Zdigits2_unique; lia.
Qed.

Lemma target_width_exact w :
  0 < w <= 3 * 2 ^ 51 -> target_width w = Ok (2 * w / 3).
Proof.
  intros Hw. unfold target_width, float_of_int, truediv.
  destruct w as [|p|p]; try lia.
  pose proof (Zdigits2_bounds p) as Hb.
  set (d := Zpos (digits2_pos p)) in *.
  assert (0 < d) as Hd0 by (unfold d; lia).
  assert (d <= 53) as Hd.
  { destruct (Z.le_gt_cases d 53) as [|Hgt]; [assumption|].
    assert (2 ^ 53 <= 2 ^ (d - 1)) by (apply Z.pow_le_mono_r; lia). lia. }
  rewrite (float_of_Z_exact (Zpos p) d) by lia.
  pose proof (pow2_scale_bounds (Zpos p) d (53 - d) Hd0 ltac:(lia) Hb) as HM.
  replace (d + (53 - d)) with 53 in HM by lia.
  assert (0 < 2 ^ (53 - d)) as HP by (apply Z.pow_pos_nonneg; lia).
  set (P := 2 ^ (53 - d)) in *.
  cbn [rbind].
  destruct (SFdiv_1_5_round (Z.to_pos (Zpos p * P)) (d - 53)) as (m' & e' & -> & Hres).
  { rewrite Z2Pos.id by lia. exact HM. }
  { lia. }
  rewrite Z2Pos.id in Hres by lia. cbv zeta in Hres.
  cbn [rbind int_of_float]. unfold cond_Zopp. f_equal.
  pose proof (Z.div_mod (2 * Zpos p) 3 ltac:(lia)) as Hnf.
  pose proof (Z.mod_pos_bound (2 * Zpos p) 3 ltac:(lia)) as Hf.
  set (n := 2 * Zpos p / 3) in *. set (f := (2 * Zpos p) mod 3) in *.
  assert (4 * (Zpos p * P) = 2 * (3 * n + f) * P) as HM4 by (rewrite <- Hnf; ring).
  pose proof (Z.div_mod (4 * (Zpos p * P)) 3 ltac:(lia)) as Hq.
  pose proof (Z.mod_pos_bound (4 * (Zpos p * P)) 3 ltac:(lia)) as Hrho.
  set (q := 4 * (Zpos p * P) / 3) in *. set (rho := (4 * (Zpos p * P)) mod 3) in *.
  destruct (Z.ltb_spec q (2 ^ 53)) as [Hlt|Hge]; destruct Hres as [-> Hm'].
  - rewrite Z.shiftl_div_pow2 by lia.
    replace (- (d - 53 - 1)) with (1 + (53 - d)) by lia.
    rewrite Z.pow_add_r by lia. fold P. change (2 ^ 1) with 2.
    rewrite Hm'. apply div_between; [lia|].
    clearbody q rho n f P. clear Hm'.
    assert (f = 0 \/ f = 1 \/ f = 2) as [-> | [-> | ->]] by lia;
      destruct (Z.eqb_spec rho 2); lia.
  - rewrite Z.shiftl_div_pow2 by lia.
    replace (- (d - 53)) with (53 - d) by lia. fold P.
    rewrite Hm'. apply div_between; [lia|].
    assert (P = 1 \/ 2 <= P) as [HP1|HP2] by lia.
    + assert (Zpos p = 3 * 2 ^ 51) as Hp by (clearbody q rho n f; lia).
      unfold q, rho, n. rewrite HP1, Hp. vm_compute. split; [discriminate | reflexivity].
    + pose proof (Z.div_mod q 2 ltac:(lia)) as Hq2.
      pose proof (Z.mod_pos_bound q 2 ltac:(lia)) as Hb2.
      pose proof (Zmod_odd q) as Hoq.
      set (h := q / 2) in *. set (b := q mod 2) in *.
      clearbody q rho n f P h b. clear Hm'.
      destruct (Z.odd h); destruct (Z.odd q);
      assert (f = 0 \/ f = 1 \/ f = 2) as [-> | [-> | ->]] by lia;
      destruct (Z.eqb_spec rho 0); simpl; lia.
Qed.

End PyFloatFacts.

(* ===================================================================== *)
(** * Facts: the planner *)
(* ===================================================================== *)

Lemma spec_target_width_eq w : spec_target_width w = 2 * w / 3.
Proof.
  unfold spec_target_width, Qdiv, Qinv, Qmult, inject_Z, Qfloor. simpl.
  f_equal. lia.
Qed.


Lemma vf_filters_nonzero r w h tw :
  r <> 0 -> target_width w = Ok tw ->
  vf_filters r w h = Ok [transpose_filter r; scale_filter tw h].
Proof.
  intros Hr Htw. unfold vf_filters. rewrite Htw.
  destruct (Z.eqb_spec r 0); [contradiction | reflexivity].
Qed.

Lemma plan_dims r W H p :
  plan r W H = Ok p -> (correctedWidth p, correctedHeight p) = corrected_dims r W H.
Proof.
  unfold plan. destruct (corrected_dims r W H) as [w h].
  destruct (vf_filters r w h); simpl; [|discriminate].
  intros [= <-]. reflexivity.
Qed.


Lemma plan_filters_length r W H p :
  plan r W H = Ok p -> length (filters p) = if r =? 0 then 1%nat else 2%nat.
Proof.
  unfold plan. destruct (corrected_dims r W H) as [w h]. unfold vf_filters.
  destruct (target_width w); simpl; [|discriminate].
  intros [= <-]. simpl. destruct (r =? 0); reflexivity.
Qed.

(** The unrotated landscape input of the specification's second scenario. *)
Example plan_landscape :
  plan 0 1920 1080 =
  Ok {| correctedWidth := 1920; correctedHeight := 1080;
        filters := ["scale=1280:1080:force_original_aspect_ratio=decrease"] |}.
Proof. reflexivity. Qed.

(** Rotation 270 swaps the axes and turns counter-clockwise. *)
Example plan_270 :
  plan 270 1920 1080 =
  Ok {| correctedWidth := 1080; correctedHeight := 1920;
        filters := map render_stage [Transpose CounterClockwise; Scale 720 1920 Decrease] |}.
Proof. reflexivity. Qed.

(** A width no double can hold: the conversion raises. *)
Example target_width_overflow :
  target_width (2 ^ 1024) = Raise (Exc OverflowError "int too large to convert to float").
Proof. vm_compute. reflexivity. Qed.

Example is_video_file_examples :
  map is_video_file ["a.MP4"; "b.mov"; "c.txt"; "mp4"; ".mp4"; "x.Mov"; "movie.mp4.bak"]
  = [true; true; false; false; true; true; false].
Proof. reflexivity. Qed.

(* ===================================================================== *)
(** * The claims about the planner *)
(* ===================================================================== *)

(** C1 (the code at rotation 180): a 1920x1080 input with rotation 180 gets
    the chain [transpose=2] then [scale=1280:1080:...], so the claim as stated
    fails on the code.  The two paths of lines 40-49 disagree there: the
    dimension path ([is_rotated], [rotation in (90, 270)]) treats 180 as
    unrotated and leaves the axes unswapped for every size, while the guard
    of the transpose stage ([if rotation:]) still adds a quarter turn.  On the
    other three values the stage is present exactly when [is_rotated] holds. *)
Theorem C1_rotation_180_paths_disagree :
  plan 180 1920 1080 =
    Ok {| correctedWidth := 1920; correctedHeight := 1080;
          filters := ["transpose=2";
                      "scale=1280:1080:force_original_aspect_ratio=decrease"] |} /\
  ~ C1_as_stated /\
  (forall W H, is_rotated 180 = false /\ corrected_dims 180 W H = (W, H)) /\
  (forall W H fs, vf_filters 180 W H = Ok fs ->
     exists scale, fs = [render_stage (Transpose CounterClockwise); scale]) /\
  (forall r W H fs, In r [0; 90; 270] -> vf_filters r W H = Ok fs ->
     (is_rotated r = true <-> length fs = 2%nat)).
Proof.
  split; [reflexivity|]. split.
  { intros Hc. destruct (Hc 1920 1080 _ eq_refl) as (w & h & Hf).
    vm_compute in Hf. discriminate Hf. }
  split; [intros W H; split; reflexivity|]. split.
  - intros W H fs. unfold vf_filters. simpl.
    destruct (target_width W) as [tw|e]; simpl; [|discriminate].
    intros [= <-]. eexists. reflexivity.
  - intros r W H fs Hin. unfold vf_filters.
    destruct (target_width W) as [tw|e]; simpl; [|discriminate].
    simpl in Hin. destruct Hin as [<- | [<- | [<- | []]]]; simpl;
      intros [= <-]; simpl; split; intros; try reflexivity; discriminate.
Qed.




(** C4: the corrected dimensions are the raw ones with the axes swapped at
    rotation 90 and 270, and the raw ones unchanged at rotation 0 and 180;
    this is what a returned plan carries. *)
Theorem C4_corrected_dimensions (r W H : Z) (p : FilterPlan) :
  plan r W H = Ok p ->
  (r = 90 \/ r = 270 -> correctedWidth p = H /\ correctedHeight p = W) /\
  (r = 0 \/ r = 180 -> correctedWidth p = W /\ correctedHeight p = H) /\
  corrected_dims 90 W H = (H, W) /\ corrected_dims 270 W H = (H, W) /\
  corrected_dims 0 W H = (W, H) /\ corrected_dims 180 W H = (W, H).
Proof.
  intros Hp. apply plan_dims in Hp.
  split; [|split; [|repeat split]].
  - intros [-> | ->]; unfold corrected_dims in Hp; simpl in Hp;
      inversion Hp; auto.
  - intros [-> | ->]; unfold corrected_dims in Hp; simpl in Hp;
      inversion Hp; auto.
Qed.

Lemma C4_corrected_dimensions_witness :
  (90 = 90 \/ 90 = 270 -> 1080 = 1080 /\ 1920 = 1920) /\
  (90 = 0 \/ 90 = 180 -> 1080 = 1920 /\ 1920 = 1080) /\
  corrected_dims 90 1920 1080 = (1080, 1920) /\ corrected_dims 270 1920 1080 = (1080, 1920) /\
  corrected_dims 0 1920 1080 = (1920, 1080) /\ corrected_dims 180 1920 1080 = (1920, 1080).
Proof.
  exact (C4_corrected_dimensions 90 1920 1080
           {| correctedWidth := 1080; correctedHeight := 1920;
              filters := ["transpose=1";
                          "scale=720:1920:force_original_aspect_ratio=decrease"] |}
           eq_refl).
Defined.

(** C5 (counterexample): at width 3 * 2^51 + 1 the binary64 quotient rounds up
    to 2^52 + 1, while the floor of the rational quotient is 2^52. *)
Lemma C5_counterexample : ~ C5_as_stated.
Proof.
  intros Hc.
  destruct (Hc 6755399441055745) as [Ht _]; [lia|].
  vm_compute in Ht. discriminate Ht.
Qed.

(** C5 (amended): for every positive corrected width up to 3 * 2^51
    (6755399441055744) the computed target width [int(width/1.5)] is the floor
    of the rational quotient, and it is smaller than the width. *)
Theorem C5_target_width_is_floor (correctedWidth : Z) :
  0 < correctedWidth <= 3 * 2 ^ 51 ->
  target_width correctedWidth = Ok (spec_target_width correctedWidth) /\
  spec_target_width correctedWidth < correctedWidth.
Proof.
  intros Hw. rewrite spec_target_width_eq. split.
  - now apply PyFloatFacts.target_width_exact.
  - PyFloatFacts.dlia.
Qed.

Lemma C5_target_width_is_floor_witness :
  target_width 1920 = Ok (spec_target_width 1920) /\ spec_target_width 1920 < 1920.
Proof. apply (C5_target_width_is_floor 1920). lia. Defined.

(** C6: at rotation 90 the chain is the clockwise transpose stage followed by
    the scale stage, whose height is the corrected (post-swap) height, that
    is the raw width, unscaled, with the policy decrease; a 1920x1080 input
    gives corrected 1080x1920, target width 720 and the chain
    [transpose=1, scale=720:1920:...decrease]. *)
Theorem C6_rotation_90_chain (W H tw : Z) :
  target_width H = Ok tw ->
  plan 90 W H =
    Ok {| correctedWidth := H; correctedHeight := W;
          filters := map render_stage [Transpose Clockwise; Scale tw W Decrease] |}
  /\ target_width 1080 = Ok 720
  /\ plan 90 1920 1080 =
       Ok {| correctedWidth := 1080; correctedHeight := 1920;
             filters := ["transpose=1";
                         "scale=720:1920:force_original_aspect_ratio=decrease"] |}.
Proof.
  intros Htw. split; [|split; reflexivity].
  unfold plan. change (corrected_dims 90 W H) with (H, W). cbv iota beta.
  rewrite (vf_filters_nonzero 90 H W tw) by (assumption || lia).
  reflexivity.
Qed.

Lemma C6_rotation_90_chain_witness :
  plan 90 1920 1080 =
    Ok {| correctedWidth := 1080; correctedHeight := 1920;
          filters := map render_stage [Transpose Clockwise; Scale 720 1920 Decrease] |}
  /\ target_width 1080 = Ok 720
  /\ plan 90 1920 1080 =
       Ok {| correctedWidth := 1080; correctedHeight := 1920;
             filters := ["transpose=1";
                         "scale=720:1920:force_original_aspect_ratio=decrease"] |}.
Proof. apply (C6_rotation_90_chain 1920 1080 720). reflexivity. Defined.

(* ===================================================================== *)
(** * Facts: the encode options *)
(* ===================================================================== *)

Lemma output_kwargs_rotate vf hw ct :
  output_kwargs vf hw ct !! "metadata:s:v" = Some (PStr "rotate=0").
Proof. reflexivity. Qed.

Lemma output_kwargs_codec vf hw ct :
  output_kwargs vf hw ct !! "c:v" = Some (PStr (if hw then "h264_qsv" else "libx264")).
Proof. reflexivity. Qed.

(* ===================================================================== *)
(** * Facts: traces of the program *)
(* ===================================================================== *)

Section ProgramFacts.
Context `{Host}.

Lemma extends_refl P st : extends P st st.
Proof. exists []. split; [now rewrite app_nil_r | constructor]. Qed.

Lemma extends_trans P st1 st2 st3 :
  extends P st1 st2 -> extends P st2 st3 -> extends P st1 st3.
Proof.
  intros (e1 & H1 & F1) (e2 & H2 & F2). exists (e1 ++ e2). split.
  - now rewrite H2, H1, app_assoc.
  - now apply Forall_app.
Qed.

Lemma extends_same_trace P st st' : trace st' = trace st -> extends P st st'.
Proof. intros E. exists []. split; [now rewrite app_nil_r | constructor]. Qed.

Lemma extends_impl (P Q : event -> Prop) st st' :
  (forall ev, P ev -> Q ev) -> extends P st st' -> extends Q st st'.
Proof.
  intros HPQ (evs & E & F). exists evs. split; [exact E|].
  eapply Forall_impl; eauto.
Qed.

Lemma preserves_ret {A} P (a : A) : preserves P (ret a).
Proof. intros st. apply extends_refl. Qed.

Lemma preserves_raise {A} P e : preserves P (@raise _ A e).
Proof. intros st. apply extends_refl. Qed.

Lemma preserves_lift_result {A} P (r : result A) : preserves P (lift_result r).
Proof. intros st. apply extends_refl. Qed.

Lemma preserves_call {A} P (op : World -> result A * World) : preserves P (call op).
Proof.
  intros st. unfold call. destruct (op (world st)) as [r w].
  now apply extends_same_trace.
Qed.

Lemma preserves_emit P ev : P ev -> preserves P (emit ev).
Proof.
  intros HP st. exists [ev]. split; [reflexivity | now repeat constructor].
Qed.

Lemma preserves_print P line : P (EvPrint line) -> preserves P (print line).
Proof. apply preserves_emit. Qed.

Lemma preserves_bind {A B} P (m : M A) (k : A -> M B) :
  preserves P m -> (forall a, preserves P (k a)) -> preserves P (bind m k).
Proof.
  intros Hm Hk st. unfold bind. specialize (Hm st).
  destruct (m st) as [[a|e] st1]; simpl in *; [|exact Hm].
  eapply extends_trans; [exact Hm | apply Hk].
Qed.

(** The continuation only has to behave on the value the pure step returns. *)
Lemma preserves_bind_result {A B} P (r : result A) (k : A -> M B) :
  (forall a, r = Ok a -> preserves P (k a)) -> preserves P (bind (lift_result r) k).
Proof.
  intros Hk st. unfold bind, lift_result.
  destruct r as [a|e]; simpl; [now apply Hk | apply extends_refl].
Qed.

Lemma preserves_try_except_ffmpeg_Error {A} P (body : M A) handler :
  preserves P body -> (forall s, preserves P (handler s)) ->
  preserves P (try_except_ffmpeg_Error body handler).
Proof.
  intros Hb Hh st. unfold try_except_ffmpeg_Error. specialize (Hb st).
  destruct (body st) as [[a|[s|c msg]] st1]; simpl in *; try exact Hb.
  eapply extends_trans; [exact Hb | apply Hh].
Qed.

Lemma preserves_try_except_Exception {A} P (body : M A) handler :
  preserves P body -> (forall e, preserves P (handler e)) ->
  preserves P (try_except_Exception body handler).
Proof.
  intros Hb Hh st. unfold try_except_Exception. specialize (Hb st).
  destruct (body st) as [[a|e] st1]; simpl in *; try exact Hb.
  eapply extends_trans; [exact Hb | apply Hh].
Qed.

Lemma build_kwargs_shape video_stream hw kwargs :
  build_kwargs video_stream hw = Ok kwargs ->
  exists vf ct, kwargs = output_kwargs vf hw ct.
Proof.
  unfold build_kwargs.
  destruct (get_rotation video_stream) as [r|]; simpl; [|discriminate].
  destruct (int_field video_stream "width") as [w|]; simpl; [|discriminate].
  destruct (int_field video_stream "height") as [h|]; simpl; [|discriminate].
  destruct (plan r w h) as [p|]; simpl; [|discriminate].
  destruct (get_creation_time video_stream) as [ct|]; simpl; [|discriminate].
  intros [= <-]. eauto.
Qed.

Lemma on_ffmpeg_Error_preserves P input_path stderr :
  (forall l, P (EvPrint l)) -> preserves P (on_ffmpeg_Error input_path stderr).
Proof.
  intros HP. unfold on_ffmpeg_Error. destruct stderr as [b|].
  - apply preserves_bind; [apply preserves_lift_result|]. intros text.
    apply preserves_bind; [apply preserves_print, HP|]. intros _. apply preserves_ret.
  - apply preserves_raise.
Qed.

Lemma no_video_stream_preserves P input_path :
  (forall l, P (EvPrint l)) -> preserves P (no_video_stream input_path).
Proof.
  intros HP. unfold no_video_stream.
  apply preserves_bind; [apply preserves_print, HP|]. intros _. apply preserves_ret.
Qed.

Lemma process_video_preserves input_path output_path hw :
  preserves (built_for hw) (process_video input_path output_path hw).
Proof.
  assert (forall l, built_for hw (EvPrint l)) as HP by (intros; exact I).
  unfold process_video.
  apply preserves_try_except_ffmpeg_Error;
    [|intros; now apply on_ffmpeg_Error_preserves].
  apply preserves_bind; [apply preserves_call|]. intros mtime.
  apply preserves_bind; [apply preserves_call|]. intros probe.
  apply preserves_bind; [apply preserves_lift_result|]. intros streams.
  apply preserves_bind; [apply preserves_lift_result|]. intros [vs|];
    [|now apply no_video_stream_preserves].
  destruct (py_not (Some vs)); [now apply no_video_stream_preserves|].
  apply preserves_bind_result. intros kwargs Hk.
  apply preserves_bind.
  { apply preserves_emit. simpl. now apply (build_kwargs_shape vs). }
  intros _.
  apply preserves_bind; [apply preserves_call|]. intros _.
  apply preserves_bind; [apply preserves_call|]. intros _.
  apply preserves_ret.
Qed.

Lemma loop_body_extends args filename c st :
  extends (built_for (hwaccel args)) st (snd (snd (loop_body args filename c st))).
Proof.
  unfold loop_body. simpl.
  set (st0 := {| world := world st; trace := _ |}).
  assert (extends (built_for (hwaccel args)) st st0) as H0.
  { exists [EvPrint (line_processing filename)].
    split; [reflexivity | repeat constructor]. }
  pose proof (process_video_preserves
                (os_path_join (input_dir args) filename)
                (os_path_join (output_dir args) filename) (hwaccel args) st0) as H1.
  destruct (process_video _ _ _ st0) as [[[|]|e] st1]; simpl in *.
  - eapply extends_trans; [exact H0|]. eapply extends_trans; [exact H1|].
    eexists [_]. split; [reflexivity | repeat constructor].
  - eapply extends_trans; [exact H0|]. eapply extends_trans; [exact H1|].
    eexists [_]. split; [reflexivity | repeat constructor].
  - eapply extends_trans; eauto.
Qed.

Lemma main_loop_extends args files c st :
  extends (built_for (hwaccel args)) st (snd (snd (main_loop args files c st))).
Proof.
  revert c st. induction files as [|f rest IH]; intros c st; simpl.
  - apply extends_refl.
  - pose proof (loop_body_extends args f c st) as Hb.
    destruct (loop_body args f c st) as [[[]|e] [c1 st1]]; simpl in *.
    + eapply extends_trans; [exact Hb | apply IH].
    + exact Hb.
Qed.

Lemma main_preserves args : preserves (built_for (hwaccel args)) (main args).
Proof.
  assert (forall l, built_for (hwaccel args) (EvPrint l)) as HP by (intros; exact I).
  unfold main.
  apply preserves_bind; [apply preserves_call|]. intros _.
  apply preserves_bind.
  { unfold get_video_files. apply preserves_bind; [apply preserves_call|].
    intros names. apply preserves_ret. }
  intros [|f files]; [apply preserves_print, HP|].
  apply preserves_bind; [apply preserves_print, HP|]. intros _.
  apply preserves_bind; [apply preserves_print, HP|]. intros _.
  intros st. pose proof (main_loop_extends args (f :: files) 0 st) as Hl.
  destruct (main_loop args (f :: files) 0 st) as [[[]|e] [c1 st1]]; simpl in *.
  - eapply extends_trans; [exact Hl|].
    eexists [_]. split; [reflexivity | repeat constructor].
  - exact Hl.
Qed.

End ProgramFacts.

(* ===================================================================== *)
(** * Facts: one file, and the batch loop *)
(* ===================================================================== *)

Section BatchFacts.
Context `{Host}.

Lemma first_video_stream_none streams :
  Forall not_video streams -> first_video_stream streams = Ok None.
Proof.
  induction 1 as [|s rest (v & Hs & Hv) _ IH]; simpl; [reflexivity|].
  now rewrite Hs, Hv.
Qed.

(** The stream the scan selects carries a [codec_type]: it is a true value. *)
Lemma first_video_stream_some streams vs :
  first_video_stream streams = Ok (Some vs) -> py_not (Some vs) = false.
Proof.
  induction streams as [|s rest IH]; simpl; [discriminate|].
  destruct (s !! "codec_type") as [v|] eqn:Hs; [|discriminate].
  destruct (py_eq_str v "video"); [|exact IH].
  intros [= <-]. apply bool_decide_eq_false. intros ->.
  rewrite lookup_empty in Hs. discriminate.
Qed.

(** A file whose probe shows no video stream: warning, [False]. *)
Lemma process_video_no_video input_path output_path hw st mtime w1 p w2 streams :
  os_path_getmtime input_path (world st) = (Ok mtime, w1) ->
  ffmpeg_probe input_path w1 = (Ok p, w2) ->
  probe_streams p = Some streams ->
  Forall not_video streams ->
  process_video input_path output_path hw st =
  (Ok false, {| world := w2; trace := trace st ++ [EvPrint (line_no_video input_path)] |}).
Proof.
  intros Hm Hp Hs Hnv. apply first_video_stream_none in Hnv.
  unfold process_video, try_except_ffmpeg_Error, bind, call, lift_result.
  rewrite Hm. simpl. rewrite Hp. simpl. rewrite Hs, Hnv. reflexivity.
Qed.

(** A file whose encode succeeds and whose time stamps cannot be set: the
    exception of [os.utime] is what [process_video] raises, unless it is an
    [ffmpeg.Error]; the call never returns [True]. *)
Lemma process_video_utime_fails input_path output_path hw st
      mtime w1 p w2 streams vs kwargs w3 e w4 :
  os_path_getmtime input_path (world st) = (Ok mtime, w1) ->
  ffmpeg_probe input_path w1 = (Ok p, w2) ->
  probe_streams p = Some streams ->
  first_video_stream streams = Ok (Some vs) ->
  build_kwargs vs hw = Ok kwargs ->
  ffmpeg_run input_path output_path kwargs global_args true w2 = (Ok tt, w3) ->
  os_utime output_path (mtime, mtime) w3 = (Raise e, w4) ->
  fst (process_video input_path output_path hw st) <> Ok true /\
  (forall c msg, e = Exc c msg ->
     process_video input_path output_path hw st =
     (Raise e, {| world := w4;
                  trace := trace st ++
                           [EvRun input_path output_path kwargs global_args true] |})).
Proof.
  intros Hm Hp Hs Hv Hk Hr Hu.
  pose proof (first_video_stream_some _ _ Hv) as Hne. simpl in Hne.
  unfold process_video, try_except_ffmpeg_Error, bind, call, lift_result, emit.
  rewrite Hm. simpl. rewrite Hp. simpl. rewrite Hs, Hv, Hne, Hk. simpl.
  rewrite Hr. simpl. rewrite Hu. simpl. split.
  - destruct e as [[b|]|c msg]; simpl; try discriminate.
    unfold on_ffmpeg_Error, bind, lift_result, print, emit, ret.
    destruct (bytes_decode_utf8 b); simpl; discriminate.
  - intros c msg ->. reflexivity.
Qed.

(** [preserve_file_dates] swallows every exception. *)
Lemma preserve_file_dates_returns input_path output_path st :
  exists st', preserve_file_dates input_path output_path st = (Ok tt, st').
Proof.
  unfold preserve_file_dates, try_except_Exception, bind, call, print, emit.
  destruct (os_stat input_path (world st)) as [[stat|e] w1]; simpl; [|eauto].
  destruct (os_utime output_path stat w1) as [[[]|e] w2]; simpl; eauto.
Qed.



Lemma main_loop_app args pre suf c st :
  main_loop args (pre ++ suf) c st =
  match main_loop args pre c st with
  | (Ok _, (c', st')) => main_loop args suf c' st'
  | (Raise e, cs) => (Raise e, cs)
  end.
Proof.
  revert c st. induction pre as [|f rest IH]; intros c st; simpl; [reflexivity|].
  destruct (loop_body args f c st) as [[[]|e] [c1 st1]]; [apply IH | reflexivity].
Qed.

(** [main], from the listing of the directory to the report. *)
Lemma main_reports args st w0 names w1 :
  path_mkdir (output_dir args) (world st) = (Ok tt, w0) ->
  os_listdir (input_dir args) w0 = (Ok names, w1) ->
  let video_files := filter (fun f => is_video_file f = true) names in
  video_files <> [] ->
  main args st =
  match main_loop args video_files 0
          {| world := w1;
             trace := trace st ++
               [EvPrint ("找到 " +:+ str_int (Z.of_nat (length video_files))
                         +:+ " 个视频文件，开始处理...");
                EvPrint ("使用" +:+ (if hwaccel args then "硬件加速" else "软件编码")
                         +:+ "模式")] |}
  with
  | (Ok _, (success_count, st')) =>
      (Ok tt, {| world := world st';
                 trace := trace st' ++ [EvPrint (summary success_count video_files)] |})
  | (Raise e, (_, st')) => (Raise e, st')
  end.
Proof.
  intros Hmk Hls video_files Hne.
  unfold main, get_video_files, bind, call, ret, print, emit.
  rewrite Hmk. simpl. rewrite Hls. simpl. fold video_files.
  destruct video_files as [|f fs]; [contradiction|].
  rewrite <- app_assoc. simpl app.
  destruct (main_loop _ _ _ _) as [[[]|e] [c1 st1]]; reflexivity.
Qed.

End BatchFacts.

(* ===================================================================== *)
(** * The claims about the encode options *)
(* ===================================================================== *)

(** C7: whatever the input file and its rotation value (0 included), the
    encode options set the rotation tag of the video stream to 0
    ([metadata:s:v = rotate=0]): in the options as built, and in every encoder
    invocation of [process_video] and of a whole run of [main], on every
    host.  The last two parts run a rotated and an unrotated input. *)
Theorem C7_rotation_tag_is_reset :
  (forall vf hw ct, output_kwargs vf hw ct !! "metadata:s:v" = Some (PStr "rotate=0")) /\
  (forall (host : Host) input_path output_path hw st,
     extends (runs_with (fun kw => kw !! "metadata:s:v" = Some (PStr "rotate=0")))
       st (snd (process_video input_path output_path hw st))) /\
  (forall (host : Host) args st,
     extends (runs_with (fun kw => kw !! "metadata:s:v" = Some (PStr "rotate=0")))
       st (snd (main args st))) /\
  encoder_calls (trace (snd (main (Demo.args "in") Demo.start))) =
    [("in/clip.mp4", "out/clip.mp4",
      Some (PStr "transpose=1,scale=720:1920:force_original_aspect_ratio=decrease"),
      Some (PStr "libx264"), Some (PStr "rotate=0"))] /\
  encoder_calls (trace (snd (main (Demo.args "in2") Demo.start))) =
    [("in2/locked.mp4", "out/locked.mp4",
      Some (PStr "scale=1280:1080:force_original_aspect_ratio=decrease"),
      Some (PStr "libx264"), Some (PStr "rotate=0"))].
Proof.
  assert (forall hw ev, built_for hw ev ->
            runs_with (fun kw => kw !! "metadata:s:v" = Some (PStr "rotate=0")) ev) as Himp.
  { intros hw [l|i o kw g ov]; simpl; [trivial|].
    intros (vf & ct & ->). apply output_kwargs_rotate. }
  split; [exact output_kwargs_rotate|]. split; [|split; [|split]].
  - intros host i o hw st. eapply extends_impl; [apply Himp|].
    apply process_video_preserves.
  - intros host args st. eapply extends_impl; [apply Himp|].
    apply main_preserves.
  - vm_compute. reflexivity.
  - vm_compute. reflexivity.
Qed.

(** C8: the video codec of the encode options is the hardware identifier
    [h264_qsv] exactly when the flag is true and the software identifier
    [libx264] otherwise; on every host, every encoder invocation of
    [process_video] and of [main] carries the codec the flag selects, so
    nothing the host answers takes part in the choice. *)
Theorem C8_codec_follows_flag :
  (forall vf ct, output_kwargs vf true ct !! "c:v" = Some (PStr "h264_qsv")) /\
  (forall vf ct, output_kwargs vf false ct !! "c:v" = Some (PStr "libx264")) /\
  (forall vf hw ct,
     output_kwargs vf hw ct !! "c:v" = Some (PStr "h264_qsv") <-> hw = true) /\
  (forall (host : Host) input_path output_path (hw : bool) st,
     extends (runs_with (fun kw =>
                kw !! "c:v" = Some (PStr (if hw then "h264_qsv" else "libx264"))))
       st (snd (process_video input_path output_path hw st))) /\
  (forall (host : Host) args st,
     extends (runs_with (fun kw =>
                kw !! "c:v" = Some (PStr (if hwaccel args then "h264_qsv" else "libx264"))))
       st (snd (main args st))).
Proof.
  assert (forall (hw : bool) ev, built_for hw ev ->
            runs_with (fun kw =>
              kw !! "c:v" = Some (PStr (if hw then "h264_qsv" else "libx264"))) ev) as Himp.
  { intros hw [l|i o kw g ov]; simpl; [trivial|].
    intros (vf & ct & ->). apply output_kwargs_codec. }
  split; [reflexivity|]. split; [reflexivity|]. split; [|split].
  - intros vf hw ct. rewrite output_kwargs_codec.
    destruct hw; split; intros E; try reflexivity; discriminate E.
  - intros host i o hw st. eapply extends_impl; [apply Himp|].
    apply process_video_preserves.
  - intros host args st. eapply extends_impl; [apply Himp|].
    apply main_preserves.
Qed.

(* ===================================================================== *)
(** * The claims about time stamps and the batch *)
(* ===================================================================== *)

(** C2 (the code at the failing input): the directory [in2] holds one file,
    whose encode succeeds and whose destination refuses [os.utime].  The
    [OSError] leaves [process_video] and [main]: the run stops after the
    encoder invocation, without a warning, without counting the file and
    without the report; [preserve_file_dates], which is never called, would
    have printed a warning and returned. *)
Theorem C2_utime_failure_aborts_the_batch :
  let denied := Exc OSError "[Errno 13] Permission denied: 'out/locked.mp4'" in
  fst (process_video "in2/locked.mp4" "out/locked.mp4" false Demo.start) = Raise denied /\
  fst (main (Demo.args "in2") Demo.start) = Raise denied /\
  printed (trace (snd (main (Demo.args "in2") Demo.start))) =
    ["找到 1 个视频文件，开始处理..."; "使用软件编码模式";
     "正在处理: locked.mp4 -> 分辨率减半并压缩..."] /\
  encoder_calls (trace (snd (main (Demo.args "in2") Demo.start))) =
    [("in2/locked.mp4", "out/locked.mp4",
      Some (PStr "scale=1280:1080:force_original_aspect_ratio=decrease"),
      Some (PStr "libx264"), Some (PStr "rotate=0"))] /\
  (let r := preserve_file_dates "in2/locked.mp4" "out/locked.mp4" Demo.start in
   fst r = Ok tt /\
   printed (trace (snd r)) =
     ["警告: 无法保留文件时间属性 - [Errno 13] Permission denied: 'out/locked.mp4'"]).
Proof.
  cbv zeta. split; [|split; [|split; [|split; [|split]]]]; vm_compute; reflexivity.
Qed.

Section BatchClaims.
Context `{Host}.

(** C9: a file whose probe succeeds and shows no video stream (every stream
    carries a [codec_type] other than ['video']) is skipped: the warning and
    the failure line are printed, the success counter is unchanged, and the
    loop goes on with the remaining files.  With two files, the other one
    counted as a success, the counter ends one higher in either order, and
    [main] reports 1/2. *)
Theorem C9_no_video_stream_is_skipped
    (args : Args) (a : string) (c : Z) (st : state)
    (mtime : Timestamp) (w1 w2 : World) (p : probe_output)
    (streams : list (gmap string pyval)) :
  let input_path := os_path_join (input_dir args) a in
  os_path_getmtime input_path (world st) = (Ok mtime, w1) ->
  ffmpeg_probe input_path w1 = (Ok p, w2) ->
  probe_streams p = Some streams ->
  Forall not_video streams ->
  let st_a :=
    {| world := w2;
       trace := trace st ++ [EvPrint (line_processing a);
                             EvPrint (line_no_video input_path);
                             EvPrint (line_failed a)] |} in
  loop_body args a c st = (Ok tt, (c, st_a)) /\
  (forall rest, main_loop args (a :: rest) c st = main_loop args rest c st_a) /\
  (forall b,
     counted args b c st_a ->
     main_loop args [a; b] c st = (Ok tt, (c + 1, state_after args b c st_a))) /\
  (forall b st_0,
     counted args b (c - 1) st_0 ->
     state_after args b (c - 1) st_0 = st ->
     main_loop args [b; a] (c - 1) st_0 = (Ok tt, (c, st_a))) /\
  (forall b st_00 w0 names,
     path_mkdir (output_dir args) (world st_00) = (Ok tt, w0) ->
     os_listdir (input_dir args) w0 = (Ok names, world st) ->
     filter (fun f => is_video_file f = true) names = [a; b] ->
     trace st = trace st_00 ++ [EvPrint "找到 2 个视频文件，开始处理...";
                                EvPrint ("使用" +:+ (if hwaccel args then "硬件加速"
                                                     else "软件编码") +:+ "模式")] ->
     c = 0 ->
     counted args b 0 st_a ->
     main args st_00 =
     (Ok tt, {| world := world (state_after args b 0 st_a);
                trace := trace (state_after args b 0 st_a) ++
                  [EvPrint (newline +:+ "处理完成! 成功处理 1/2 个文件")] |})).
Proof.
  intros input_path Hm Hp Hs Hnv st_a.
  assert (loop_body args a c st = (Ok tt, (c, st_a))) as Hbody.
  { unfold loop_body. simpl. fold input_path.
    erewrite process_video_no_video; eauto. simpl.
    unfold st_a. rewrite <- !app_assoc. reflexivity. }
  assert (forall rest, main_loop args (a :: rest) c st = main_loop args rest c st_a) as Hcont.
  { intros rest. simpl. now rewrite Hbody. }
  assert (forall b c0 st0, counted args b c0 st0 ->
            loop_body args b c0 st0 = (Ok tt, (c0 + 1, state_after args b c0 st0))) as Hcounted.
  { intros b c0 st0 [Hr Hc]. unfold state_after.
    destruct (loop_body args b c0 st0) as [r [c1 st1]]; simpl in *. now subst. }
  split; [exact Hbody|]. split; [exact Hcont|]. split; [|split].
  - intros b Hb. rewrite Hcont. simpl. now rewrite (Hcounted _ _ _ Hb).
  - intros b st_0 Hb Hst. simpl. rewrite (Hcounted _ _ _ Hb), Hst.
    replace (c - 1 + 1) with c by lia. rewrite Hbody. reflexivity.
  - intros b st_00 w0 names Hmk Hls Hfilter Htrace -> Hb.
    rewrite (main_reports args st_00 w0 names (world st) Hmk Hls)
      by (rewrite Hfilter; discriminate).
    rewrite Hfilter.
    change ("找到 " +:+ str_int (Z.of_nat (length [a; b])) +:+ " 个视频文件，开始处理...")
      with "找到 2 个视频文件，开始处理...".
    rewrite <- Htrace.
    replace {| world := world st; trace := trace st |} with st by (now destruct st).
    rewrite Hcont. simpl. rewrite (Hcounted _ _ _ Hb). reflexivity.
Qed.


End BatchClaims.

(** The directory [in] of the demo host lists [voice.mov] (audio only) and
    then [clip.mp4]; the directory [in1] lists them the other way round. *)
Lemma C9_no_video_stream_is_skipped_witness :
  fst (snd (main_loop (Demo.args "in") ["voice.mov"; "clip.mp4"] 0 Demo.start)) = 1 /\
  printed (trace (snd (snd (main_loop (Demo.args "in") ["voice.mov"] 0 Demo.start)))) =
    ["正在处理: voice.mov -> 分辨率减半并压缩..."; "警告: in/voice.mov 中没有视频流，跳过";
     "失败: voice.mov"] /\
  fst (snd (main_loop (Demo.args "in1") ["clip.mp4"; "voice.mov"] 0 Demo.start)) = 1 /\
  fst (main (Demo.args "in") Demo.start) = Ok tt /\
  last (trace (snd (main (Demo.args "in") Demo.start))) =
    Some (EvPrint (newline +:+ "处理完成! 成功处理 1/2 个文件")).
Proof.
  pose (audio_only := {| probe_streams := Some [Demo.audio_stream] |}).
  assert (Forall not_video [Demo.audio_stream]) as Hnv.
  { repeat constructor. exists (PStr "audio"). split; reflexivity. }
  pose (st_in := @Build_state Demo.host tt
                   [EvPrint "找到 2 个视频文件，开始处理..."; EvPrint "使用软件编码模式"]).
  pose (st_in1 := state_after (Demo.args "in1") "clip.mp4" 0 Demo.start).
  destruct (@C9_no_video_stream_is_skipped Demo.host (Demo.args "in") "voice.mov" 0
              Demo.start 1714557600 tt tt audio_only [Demo.audio_stream]
              eq_refl eq_refl eq_refl Hnv)
    as (_ & Hcont & Hab & _).
  destruct (@C9_no_video_stream_is_skipped Demo.host (Demo.args "in1") "voice.mov" 1
              st_in1 1714557600 tt tt audio_only [Demo.audio_stream])
    as (_ & _ & _ & Hba & _);
    [vm_compute; reflexivity | reflexivity | reflexivity | exact Hnv |].
  destruct (@C9_no_video_stream_is_skipped Demo.host (Demo.args "in") "voice.mov" 0
              st_in 1714557600 tt tt audio_only [Demo.audio_stream]
              eq_refl eq_refl eq_refl Hnv)
    as (_ & _ & _ & _ & Hmain).
  split; [|split; [|split]].
  - rewrite Hab; [reflexivity|]. split; vm_compute; reflexivity.
  - rewrite Hcont. reflexivity.
  - specialize (Hba "clip.mp4" Demo.start). change (1 - 1) with 0 in Hba.
    rewrite Hba; [reflexivity | split; vm_compute; reflexivity | reflexivity].
  - rewrite (Hmain "clip.mp4" Demo.start tt ["voice.mov"; "notes.txt"; "clip.mp4"]);
      [split; [reflexivity | apply last_snoc] | reflexivity | reflexivity | reflexivity
       | reflexivity | reflexivity | split; vm_compute; reflexivity].
Defined.

(* ===================================================================== *)
(** * Beyond the claims: the width computation on all signs *)
(* ===================================================================== *)

Module PyFloatSign.
Import PyFloat.

Lemma binary_round_aux_sign mx ex lx :
  binary_round_aux prec emax true mx ex lx =
  SFopp (binary_round_aux prec emax false mx ex lx).
Proof.
  unfold binary_round_aux.
  destruct (shr_fexp prec emax mx ex lx) as [mrs e1].
  destruct (shr_fexp prec emax _ e1 loc_Exact) as [mrs2 e2].
  destruct (shr_m mrs2); [reflexivity | | reflexivity].
  destruct (e2 <=? emax - prec); reflexivity.
Qed.

Lemma float_of_Z_opp z : float_of_Z (- z) = SFopp (float_of_Z z) \/ z = 0.
Proof.
  destruct z as [|p|p]; [now right | left | left]; unfold float_of_Z;
    [change (- Z.pos p) with (Z.neg p) | change (- Z.neg p) with (Z.pos p)];
    unfold binary_normalize, binary_round;
    destruct (shl_align _ _ _) as [mz ez]; rewrite binary_round_aux_sign.
  - reflexivity.
  - now destruct (binary_round_aux prec emax false (Z.pos mz) ez loc_Exact) as [[]|[]| |[] ? ?].
Qed.

Lemma target_width_opp w :
  target_width (- w) = (z <- target_width w ;; Ok (- z)).
Proof.
  destruct (float_of_Z_opp w) as [E | ->]; [|reflexivity].
  unfold target_width, float_of_int. rewrite E.
  destruct (float_of_Z w) as [s|s| |s m e]; try reflexivity.
  cbn [SFopp rbind]. unfold truediv, f1_5, SFdiv.
  destruct (SFdiv_core_binary _ _ _ _ _ _) as [[mz ez] lz].
  destruct s; cbn [negb xorb]; rewrite ?binary_round_aux_sign;
    destruct (binary_round_aux prec emax false mz ez lz) as [[]|[]| |[] ? ?];
    cbn [SFopp int_of_float rbind negb cond_Zopp]; try reflexivity;
    rewrite ?Z.opp_involutive; reflexivity.
Qed.

Lemma target_width_quot w :
  - (3 * 2 ^ 51) <= w <= 3 * 2 ^ 51 -> target_width w = Ok (Z.quot (2 * w) 3).
Proof.
  intros Hw. destruct (Z.lt_trichotomy w 0) as [Hneg | [-> | Hpos]].
  - replace w with (- (- w)) by lia. rewrite target_width_opp.
    rewrite PyFloatFacts.target_width_exact by lia. cbn [rbind]. f_equal.
    rewrite Z.opp_involutive.
    replace (2 * w) with (- (2 * - w)) by lia.
    rewrite Z.quot_opp_l by lia. rewrite Z.quot_div_nonneg by lia. reflexivity.
  - reflexivity.
  - rewrite PyFloatFacts.target_width_exact by lia.
    rewrite Z.quot_div_nonneg by lia. reflexivity.
Qed.

End PyFloatSign.

(* ===================================================================== *)
(** * Beyond the claims: the file-name filter *)
(* ===================================================================== *)

Lemma string_length_app a b :
  String.length (a +:+ b) = (String.length a + String.length b)%nat.
Proof. induction a as [|c a IH]; simpl; [reflexivity | now rewrite IH]. Qed.

Lemma substring_whole s : String.substring 0 (String.length s) s = s.
Proof. induction s as [|c s IH]; simpl; [reflexivity | now rewrite IH]. Qed.

Lemma substring_skip a b k :
  String.substring (String.length a) k (a +:+ b) = String.substring 0 k b.
Proof. induction a as [|c a IH]; simpl; [reflexivity | exact IH]. Qed.

Lemma substring_split s i :
  (i <= String.length s)%nat ->
  s = String.substring 0 i s +:+ String.substring i (String.length s - i) s.
Proof.
  revert i. induction s as [|c s IH]; intros [|i] Hi; simpl in *; try lia.
  - reflexivity.
  - now rewrite substring_whole.
  - specialize (IH i ltac:(lia)).
    change (String c s = String c (String.substring 0 i s +:+
                                   String.substring i (String.length s - i) s)).
    now rewrite <- IH.
Qed.

Lemma lower_length s : String.length (lower s) = String.length s.
Proof. induction s as [|c s IH]; simpl; [reflexivity | now rewrite IH]. Qed.

Lemma lower_app a b : lower (a +:+ b) = lower a +:+ lower b.
Proof. induction a as [|c a IH]; simpl; [reflexivity | now rewrite IH]. Qed.

Lemma lower_substring i k s :
  lower (String.substring i k s) = String.substring i k (lower s).
Proof.
  revert i k. induction s as [|c s IH]; intros [|i] [|k]; simpl; try reflexivity.
  - now rewrite IH.
  - apply IH.
  - apply IH.
Qed.

Lemma lower_ascii_idem c : lower_ascii (lower_ascii c) = lower_ascii c.
Proof. destruct c as [[] [] [] [] [] [] [] []]; reflexivity. Qed.

Lemma lower_idem s : lower (lower s) = lower s.
Proof.
  induction s as [|c s IH]; simpl; [reflexivity|].
  now rewrite lower_ascii_idem, IH.
Qed.

Lemma endswith_iff s suffix :
  endswith s suffix = true <-> exists pre, s = pre +:+ suffix.
Proof.
  unfold endswith. rewrite andb_true_iff, Nat.leb_le, String.eqb_eq. split.
  - intros [Hk Hs]. exists (String.substring 0 (String.length s - String.length suffix) s).
    pose proof (substring_split s (String.length s - String.length suffix) ltac:(lia)) as Hsp.
    replace (String.length s - (String.length s - String.length suffix))%nat
      with (String.length suffix) in Hsp by lia.
    now rewrite Hs in Hsp.
  - intros [pre ->]. rewrite string_length_app. split; [lia|].
    replace (String.length pre + String.length suffix - String.length suffix)%nat
      with (String.length pre) by lia.
    rewrite substring_skip. apply substring_whole.
Qed.

Lemma endswith_lower_iff f suffix :
  endswith (lower f) suffix = true <->
  exists stem ext, f = stem +:+ ext /\ lower ext = suffix.
Proof.
  split.
  - intros He. pose proof He as Hp. unfold endswith in He.
    rewrite andb_true_iff, Nat.leb_le, String.eqb_eq, lower_length in He.
    destruct He as [Hk Hs]. rewrite <- lower_substring in Hs.
    exists (String.substring 0 (String.length f - String.length suffix) f),
           (String.substring (String.length f - String.length suffix)
              (String.length suffix) f).
    split; [|exact Hs].
    pose proof (substring_split f (String.length f - String.length suffix) ltac:(lia)) as Hsp.
    replace (String.length f - (String.length f - String.length suffix))%nat
      with (String.length suffix) in Hsp by lia.
    exact Hsp.
  - intros (stem & ext & -> & <-). rewrite lower_app. apply endswith_iff. eauto.
Qed.

(** X4: [is_video_file] accepts exactly the names that end, whatever the case
    of their letters, with [.mp4] or [.mov]: the name splits into a stem and
    an extension whose lower-casing is one of the two; the answer does not
    change when the name is lower-cased, and a name of fewer than four
    characters is refused. *)
Theorem is_video_file_iff f :
  (is_video_file f = true <->
   exists stem ext, f = stem +:+ ext /\ (lower ext = ".mp4" \/ lower ext = ".mov")) /\
  is_video_file (lower f) = is_video_file f /\
  ((String.length f < 4)%nat -> is_video_file f = false).
Proof.
  split; [|split].
  - unfold is_video_file. cbv zeta. rewrite orb_true_iff, !endswith_lower_iff. split.
    + intros [(s & e & ? & ?) | (s & e & ? & ?)]; eauto 6.
    + intros (s & e & ? & [? | ?]); eauto 6.
  - unfold is_video_file. cbv zeta. now rewrite lower_idem.
  - intros Hlen. unfold is_video_file, endswith. cbv zeta. rewrite lower_length.
    simpl String.length.
    replace (4 <=? String.length f)%nat with false by (symmetry; apply Nat.leb_gt; lia).
    reflexivity.
Qed.

(* ===================================================================== *)
(** * Beyond the claims: the planner and the probe result *)
(* ===================================================================== *)

(** X1: for every width between -3 * 2^51 and 3 * 2^51, zero and negative
    values included, [int(width/1.5)] is the quotient of [2 * width] by 3
    truncated toward zero; from width 5 on it lies strictly between half the
    width and the width (the frame is narrowed to two thirds, not halved). *)
Theorem target_width_truncates (width : Z) :
  - (3 * 2 ^ 51) <= width <= 3 * 2 ^ 51 ->
  target_width width = Ok (Z.quot (2 * width) 3) /\
  (5 <= width -> width / 2 < Z.quot (2 * width) 3 < width).
Proof.
  intros Hw. split; [now apply PyFloatSign.target_width_quot|].
  intros H5. rewrite Z.quot_div_nonneg by lia. PyFloatFacts.dlia.
Qed.

Lemma target_width_truncates_witness :
  (target_width (-4) = Ok (-2) /\ (5 <= -4 -> -4 / 2 < -2 < -4)) /\
  (target_width 1920 = Ok 1280 /\ (5 <= 1920 -> 1920 / 2 < 1280 < 1920)).
Proof.
  split.
  - apply (target_width_truncates (-4)). lia.
  - apply (target_width_truncates 1920). lia.
Defined.

(** X2: on raw dimensions up to 3 * 2^51 in absolute value the planner never
    raises, whatever the rotation value: it returns the corrected dimensions,
    the transpose stage exactly when the rotation is not 0, and the scale
    stage on two thirds of the corrected width and the corrected height. *)
Theorem plan_on_real_sizes (r W H : Z) :
  - (3 * 2 ^ 51) <= W <= 3 * 2 ^ 51 ->
  - (3 * 2 ^ 51) <= H <= 3 * 2 ^ 51 ->
  plan r W H =
  Ok {| correctedWidth := fst (corrected_dims r W H);
        correctedHeight := snd (corrected_dims r W H);
        filters := (if r =? 0 then [] else [transpose_filter r]) ++
                   [scale_filter (Z.quot (2 * fst (corrected_dims r W H)) 3)
                                 (snd (corrected_dims r W H))] |}.
Proof.
  intros HW HH. unfold plan.
  assert (- (3 * 2 ^ 51) <= fst (corrected_dims r W H) <= 3 * 2 ^ 51) as Hw.
  { unfold corrected_dims. destruct (is_rotated r); simpl; lia. }
  destruct (corrected_dims r W H) as [w h]. simpl in *.
  unfold vf_filters. rewrite PyFloatSign.target_width_quot by exact Hw.
  cbn [rbind]. destruct (r =? 0); reflexivity.
Qed.

Lemma plan_on_real_sizes_witness :
  plan (-90) 1080 1920 =
  Ok {| correctedWidth := 1080; correctedHeight := 1920;
        filters := ["transpose=2"; "scale=720:1920:force_original_aspect_ratio=decrease"] |}.
Proof. apply (plan_on_real_sizes (-90) 1080 1920); lia. Defined.

(** X3: the scan of the probed streams selects the first stream whose
    [codec_type] is ['video'] and never looks at the streams after it; a
    stream without [codec_type] met before any video stream raises
    [KeyError]; streams that are all of another type give [None]. *)
Theorem first_video_stream_selects_first
    (pre rest : list (gmap string pyval)) (s : gmap string pyval) :
  Forall not_video pre ->
  first_video_stream pre = Ok None /\
  (s !! "codec_type" = Some (PStr "video") ->
   first_video_stream (pre ++ s :: rest) = Ok (Some s)) /\
  (s !! "codec_type" = None ->
   first_video_stream (pre ++ s :: rest) = Raise (Exc KeyError "'codec_type'")).
Proof.
  intros Hpre. split; [|split].
  - induction Hpre as [|x l (v & Hx & Hv) _ IH]; simpl; [reflexivity|].
    now rewrite Hx, Hv.
  - intros Hs. induction Hpre as [|x l (v & Hx & Hv) _ IH]; simpl.
    + now rewrite Hs.
    + now rewrite Hx, Hv.
  - intros Hs. induction Hpre as [|x l (v & Hx & Hv) _ IH]; simpl.
    + now rewrite Hs.
    + now rewrite Hx, Hv.
Qed.

Lemma first_video_stream_selects_first_witness :
  first_video_stream
    ([Demo.audio_stream] ++ Demo.video_stream 1920 1080 ∅ :: [∅; Demo.audio_stream]) =
  Ok (Some (Demo.video_stream 1920 1080 ∅)) /\
  first_video_stream ([Demo.audio_stream] ++ ∅ :: [Demo.video_stream 1920 1080 ∅]) =
  Raise (Exc KeyError "'codec_type'").
Proof.
  assert (Forall not_video [Demo.audio_stream]) as Hnv.
  { repeat constructor. exists (PStr "audio"). split; reflexivity. }
  split.
  - apply (first_video_stream_selects_first [Demo.audio_stream] [∅; Demo.audio_stream]
             (Demo.video_stream 1920 1080 ∅) Hnv). reflexivity.
  - apply (first_video_stream_selects_first [Demo.audio_stream]
             [Demo.video_stream 1920 1080 ∅] ∅ Hnv). reflexivity.
Defined.

(* ===================================================================== *)
(** * Beyond the claims: one file, and the batch *)
(* ===================================================================== *)

Section MoreFacts.
Context `{Host}.

Ltac crunch :=
  repeat (simpl;
          match goal with
          | |- context [match ?x with _ => _ end] =>
              lazymatch x with
              | context [match _ with _ => _ end] => fail
              | _ => destruct x eqn:?
              end
          end).

Ltac finish :=
  eexists; split;
  [ first [ symmetry; apply app_nil_r | rewrite <- ?app_assoc; reflexivity ]
  | simpl; eauto 8 ].

Lemma process_video_outcome input_path output_path hw st :
  exists evs,
    trace (snd (process_video input_path output_path hw st)) = trace st ++ evs /\
    outcome_events input_path output_path
      (fst (process_video input_path output_path hw st)) evs.
Proof.
  unfold process_video, try_except_ffmpeg_Error, no_video_stream, on_ffmpeg_Error,
    print, bind, call, lift_result, emit, ret, raise.
  crunch; simpl; finish.
Qed.

(** X5: [preserve_file_dates] never raises, on any host.  When [os.stat]
    raises [e], [os.utime] is not called and the one line printed is the
    warning that ends with [str(e)] of that very exception; when [os.stat]
    succeeds, [os.utime] is called on the output with the times read, and
    either it succeeds and nothing is printed, or it raises [e] and the one
    line printed is the warning with [str(e)]. *)
Theorem preserve_file_dates_is_best_effort input_path output_path st :
  fst (preserve_file_dates input_path output_path st) = Ok tt /\
  snd (preserve_file_dates input_path output_path st) =
    match os_stat input_path (world st) with
    | (Raise e, w1) =>
        {| world := w1;
           trace := trace st ++ [EvPrint ("警告: 无法保留文件时间属性 - " +:+ exn_str e)] |}
    | (Ok stat, w1) =>
        match os_utime output_path stat w1 with
        | (Ok _, w2) => {| world := w2; trace := trace st |}
        | (Raise e, w2) =>
            {| world := w2;
               trace := trace st ++ [EvPrint ("警告: 无法保留文件时间属性 - " +:+ exn_str e)] |}
        end
    end.
Proof.
  unfold preserve_file_dates, try_except_Exception, print, bind, call, emit.
  destruct (os_stat input_path (world st)) as [[stat|e] w1]; simpl.
  - destruct (os_utime output_path stat w1) as [[[]|e] w2]; simpl; auto.
  - auto.
Qed.

(** X7: the successful path of [process_video]: modification time read first,
    then probe, encoder invocation with the built options, and last
    [os.utime] on the output with the time read before the encode, for both
    the access and the modification time; the result is [True], the encoder
    invocation is the only event, no line is printed. *)
Theorem process_video_success input_path output_path hw st
    mtime w1 p w2 streams vs kwargs w3 w4 :
  os_path_getmtime input_path (world st) = (Ok mtime, w1) ->
  ffmpeg_probe input_path w1 = (Ok p, w2) ->
  probe_streams p = Some streams ->
  first_video_stream streams = Ok (Some vs) ->
  build_kwargs vs hw = Ok kwargs ->
  ffmpeg_run input_path output_path kwargs global_args true w2 = (Ok tt, w3) ->
  os_utime output_path (mtime, mtime) w3 = (Ok tt, w4) ->
  process_video input_path output_path hw st =
  (Ok true, {| world := w4;
               trace := trace st ++
                        [EvRun input_path output_path kwargs global_args true] |}).
Proof.
  intros Hm Hp Hs Hv Hk Hr Hu.
  pose proof (first_video_stream_some _ _ Hv) as Hne. simpl in Hne.
  unfold process_video, try_except_ffmpeg_Error, bind, call, lift_result, emit.
  rewrite Hm. simpl. rewrite Hp. simpl. rewrite Hs, Hv, Hne, Hk. simpl.
  rewrite Hr. simpl. rewrite Hu. reflexivity.
Qed.

(** X8: a video stream whose tags carry no [rotate] entry (or that has no
    [tags] at all) is planned as rotation 0, without asking [int()] to read a
    string: the filter chain is the scale stage alone, and a missing
    [creation_time] gives the metadata value [creation_time=] with an empty
    time. *)
Theorem build_kwargs_without_rotate vs hw tags w h tw :
  get_tags vs = Ok tags ->
  tags !! "rotate" = None ->
  int_field vs "width" = Ok w ->
  int_field vs "height" = Ok h ->
  target_width w = Ok tw ->
  get_rotation vs = Ok 0 /\
  build_kwargs vs hw =
    Ok (output_kwargs (scale_filter tw h) hw (default "" (tags !! "creation_time"))) /\
  (vs !! "tags" = None -> tags = ∅ /\ get_creation_time vs = Ok "").
Proof.
  intros Ht Hr Hw Hh Htw.
  assert (get_rotation vs = Ok 0) as Hrot.
  { unfold get_rotation. rewrite Ht. simpl. now rewrite Hr. }
  split; [exact Hrot|]. split.
  - unfold build_kwargs. rewrite Hrot, Hw, Hh. simpl.
    unfold plan, corrected_dims. simpl. unfold vf_filters. rewrite Htw. simpl.
    unfold get_creation_time. rewrite Ht. reflexivity.
  - intros Hno. unfold get_tags in Ht. rewrite Hno in Ht. injection Ht as <-.
    split; [reflexivity|]. unfold get_creation_time, get_tags. now rewrite Hno.
Qed.

(** X9: a selected video stream without a [width] entry makes
    [process_video] raise [KeyError]: the exception is not an [ffmpeg.Error],
    so it is not caught; nothing is printed and the encoder is not invoked. *)
Theorem process_video_missing_width input_path output_path hw st
    mtime w1 p w2 streams vs r :
  os_path_getmtime input_path (world st) = (Ok mtime, w1) ->
  ffmpeg_probe input_path w1 = (Ok p, w2) ->
  probe_streams p = Some streams ->
  first_video_stream streams = Ok (Some vs) ->
  get_rotation vs = Ok r ->
  vs !! "width" = None ->
  process_video input_path output_path hw st =
  (Raise (Exc KeyError "'width'"), {| world := w2; trace := trace st |}).
Proof.
  intros Hm Hp Hs Hv Hr Hw.
  pose proof (first_video_stream_some _ _ Hv) as Hne. simpl in Hne.
  assert (build_kwargs vs hw = Raise (Exc KeyError "'width'")) as Hk.
  { unfold build_kwargs, int_field. rewrite Hr, Hw. reflexivity. }
  unfold process_video, try_except_ffmpeg_Error, bind, call, lift_result, emit.
  rewrite Hm. simpl. rewrite Hp. simpl. rewrite Hs, Hv, Hne, Hk. reflexivity.
Qed.

(** X10: when the probe raises [ffmpeg.Error] with a captured standard error
    that decodes as UTF-8, [process_video] prints the error line with the
    decoded text and returns [False]; the encoder is not invoked. *)
Theorem process_video_probe_error input_path output_path hw st
    mtime w1 b text w2 :
  os_path_getmtime input_path (world st) = (Ok mtime, w1) ->
  ffmpeg_probe input_path w1 = (Raise (ffmpeg_Error (Some b)), w2) ->
  bytes_decode_utf8 b = Ok text ->
  process_video input_path output_path hw st =
  (Ok false, {| world := w2;
                trace := trace st ++ [EvPrint (line_error input_path text)] |}).
Proof.
  intros Hm Hp Hd.
  unfold process_video, try_except_ffmpeg_Error, on_ffmpeg_Error, print, bind, call,
    lift_result, emit, ret, raise.
  rewrite Hm. simpl. rewrite Hp. simpl. rewrite Hd. reflexivity.
Qed.

(** X11: when the encoder raises, whatever the exception: [process_video]
    does not return [True] and does not call [os.utime] (the world is the
    one the encoder left); after the invocation either nothing is printed and
    an exception leaves [process_video], or the exception was an
    [ffmpeg.Error] with standard-error bytes that decode, the error line is
    printed and the result is [False].  An exception that is not an
    [ffmpeg.Error] leaves [process_video] unchanged. *)
Theorem process_video_encode_failure input_path output_path hw st
    mtime w1 p w2 streams vs kwargs e w3 :
  os_path_getmtime input_path (world st) = (Ok mtime, w1) ->
  ffmpeg_probe input_path w1 = (Ok p, w2) ->
  probe_streams p = Some streams ->
  first_video_stream streams = Ok (Some vs) ->
  build_kwargs vs hw = Ok kwargs ->
  ffmpeg_run input_path output_path kwargs global_args true w2 = (Raise e, w3) ->
  fst (process_video input_path output_path hw st) <> Ok true /\
  world (snd (process_video input_path output_path hw st)) = w3 /\
  (exists evs,
     trace (snd (process_video input_path output_path hw st)) =
       trace st ++ EvRun input_path output_path kwargs global_args true :: evs /\
     ((evs = [] /\
       exists e', fst (process_video input_path output_path hw st) = Raise e') \/
      (exists b text,
         e = ffmpeg_Error (Some b) /\ bytes_decode_utf8 b = Ok text /\
         evs = [EvPrint (line_error input_path text)] /\
         fst (process_video input_path output_path hw st) = Ok false))) /\
  (forall cls msg, e = Exc cls msg ->
     fst (process_video input_path output_path hw st) = Raise e).
Proof.
  intros Hm Hp Hs Hv Hk Hr.
  pose proof (first_video_stream_some _ _ Hv) as Hne. simpl in Hne.
  unfold process_video, try_except_ffmpeg_Error, on_ffmpeg_Error, print, bind, call,
    lift_result, emit, ret, raise.
  rewrite Hm. simpl. rewrite Hp. simpl. rewrite Hs, Hv, Hne, Hk. simpl.
  rewrite Hr. simpl.
  destruct e as [[b|] | cls msg]; simpl.
  - destruct (bytes_decode_utf8 b) as [text|e'] eqn:Hd; simpl.
    + split; [discriminate|]. split; [reflexivity|]. split.
      * exists [EvPrint (line_error input_path text)]. split.
        { rewrite <- app_assoc. reflexivity. }
        right. exists b, text. auto.
      * intros cls msg [=].
    + split; [discriminate|]. split; [reflexivity|]. split.
      * exists []. split; [reflexivity|]. left. eauto.
      * intros cls msg [=].
  - split; [discriminate|]. split; [reflexivity|]. split.
    + exists []. split; [reflexivity|]. left. eauto.
    + intros cls msg [=].
  - split; [discriminate|]. split; [reflexivity|]. split.
    + exists []. split; [reflexivity|]. left. eauto.
    + intros cls' msg' [= <- <-]. reflexivity.
Qed.

(** X12: when the encoder raises [ffmpeg.Error] whose [stderr] is [None]
    (the standard error was not captured), the handler itself fails:
    [e.stderr.decode] raises [AttributeError], which leaves [process_video];
    no error line is printed. *)
Theorem process_video_encode_error_uncaptured input_path output_path hw st
    mtime w1 p w2 streams vs kwargs w3 :
  os_path_getmtime input_path (world st) = (Ok mtime, w1) ->
  ffmpeg_probe input_path w1 = (Ok p, w2) ->
  probe_streams p = Some streams ->
  first_video_stream streams = Ok (Some vs) ->
  build_kwargs vs hw = Ok kwargs ->
  ffmpeg_run input_path output_path kwargs global_args true w2 =
    (Raise (ffmpeg_Error None), w3) ->
  process_video input_path output_path hw st =
  (Raise (Exc AttributeError "'NoneType' object has no attribute 'decode'"),
   {| world := w3;
      trace := trace st ++ [EvRun input_path output_path kwargs global_args true] |}).
Proof.
  intros Hm Hp Hs Hv Hk Hr.
  pose proof (first_video_stream_some _ _ Hv) as Hne. simpl in Hne.
  unfold process_video, try_except_ffmpeg_Error, on_ffmpeg_Error, print, bind, call,
    lift_result, emit, ret, raise.
  rewrite Hm. simpl. rewrite Hp. simpl. rewrite Hs, Hv, Hne, Hk. simpl.
  rewrite Hr. reflexivity.
Qed.

Lemma output_kwargs_fixed_policy vf hw ct : fixed_policy (output_kwargs vf hw ct).
Proof. repeat split. Qed.

Lemma process_video_run_of input_path output_path hw :
  preserves (run_of input_path output_path) (process_video input_path output_path hw).
Proof.
  intros st.
  destruct (process_video_outcome input_path output_path hw st) as (evs & Ht & Ho).
  destruct (process_video_preserves input_path output_path hw st) as (evs' & Ht' & Hb).
  rewrite Ht in Ht'. apply app_inv_head in Ht'. subst evs'.
  exists evs. split; [exact Ht|].
  assert (forall kw, built_for hw (EvRun input_path output_path kw global_args true) ->
            run_of input_path output_path
              (EvRun input_path output_path kw global_args true)) as Hrun.
  { intros kw (vf & ct & ->). simpl. repeat split. }
  destruct (fst (process_video input_path output_path hw st)) as [[|]|e]; simpl in Ho.
  - destruct Ho as (kw & ->). inversion Hb; subst.
    constructor; [now apply Hrun | constructor].
  - destruct Ho as [-> | [(text & ->) | (kw & text & ->)]].
    + repeat constructor.
    + repeat constructor.
    + inversion Hb; subst. constructor; [now apply Hrun | repeat constructor].
  - destruct Ho as [-> | (kw & ->)]; [constructor|].
    inversion Hb; subst. constructor; [now apply Hrun | constructor].
Qed.

(** X6: the events of any [process_video] call, on any host, by its result:
    [True] comes with the encoder invocation alone, [False] with exactly one
    printed line (no video stream, or the error text), after the invocation
    when the encoder ran; an exception comes with no printed line.  The
    encoder is invoked at most once, on the paths given, with the fixed
    options. *)
Theorem process_video_events input_path output_path hw st :
  exists evs,
    trace (snd (process_video input_path output_path hw st)) = trace st ++ evs /\
    outcome_events input_path output_path
      (fst (process_video input_path output_path hw st)) evs /\
    Forall (run_of input_path output_path) evs /\
    (length (encoder_calls evs) <= 1)%nat.
Proof.
  destruct (process_video_outcome input_path output_path hw st) as (evs & Ht & Ho).
  destruct (process_video_run_of input_path output_path hw st) as (evs' & Ht' & Hr).
  rewrite Ht in Ht'. apply app_inv_head in Ht'. subst evs'.
  exists evs. repeat split; try assumption.
  destruct (fst (process_video input_path output_path hw st)) as [[|]|e]; simpl in Ho.
  - destruct Ho as (kw & ->). simpl. lia.
  - destruct Ho as [-> | [(text & ->) | (kw & text & ->)]]; simpl; lia.
  - destruct Ho as [-> | (kw & ->)]; simpl; lia.
Qed.

Lemma loop_body_run_on_video args filename c st :
  is_video_file filename = true ->
  extends (run_on_video args) st (snd (snd (loop_body args filename c st))).
Proof.
  intros Hv. unfold loop_body. simpl.
  set (st0 := {| world := world st; trace := _ |}).
  assert (forall l, run_on_video args (EvPrint l)) as HP by (intros; exact I).
  assert (extends (run_on_video args) st st0) as H0.
  { exists [EvPrint (line_processing filename)]. split; [reflexivity | repeat constructor]. }
  pose proof (process_video_run_of
                (os_path_join (input_dir args) filename)
                (os_path_join (output_dir args) filename) (hwaccel args) st0) as H1.
  apply (extends_impl _ (run_on_video args)) in H1.
  2: { intros [l|i o kw g ov]; simpl; [trivial|].
       intros (-> & -> & -> & -> & Hf).
       split; [exists filename; auto | auto]. }
  destruct (process_video _ _ _ st0) as [[[|]|e] st1]; simpl in *.
  - eapply extends_trans; [exact H0|]. eapply extends_trans; [exact H1|].
    eexists [_]. split; [reflexivity | repeat constructor].
  - eapply extends_trans; [exact H0|]. eapply extends_trans; [exact H1|].
    eexists [_]. split; [reflexivity | repeat constructor].
  - eapply extends_trans; eauto.
Qed.

Lemma main_loop_run_on_video args files c st :
  Forall (fun f => is_video_file f = true) files ->
  extends (run_on_video args) st (snd (snd (main_loop args files c st))).
Proof.
  intros Hall. revert c st. induction Hall as [|f rest Hf _ IH]; intros c st; simpl.
  - apply extends_refl.
  - pose proof (loop_body_run_on_video args f c st Hf) as Hb.
    destruct (loop_body args f c st) as [[[]|e] [c1 st1]]; simpl in *.
    + eapply extends_trans; [exact Hb | apply IH].
    + exact Hb.
Qed.

(** X13: in every run of [main], on every host, each encoder invocation reads
    [input_dir/f] and writes [output_dir/f] for one and the same name [f] that
    [is_video_file] accepts, with the two global argument pairs,
    [overwrite_output=True] and the fixed options (crf 18, preset fast,
    faststart, audio copy, metadata map and dispositions 0). *)
Theorem main_runs_on_videos args st :
  extends (run_on_video args) st (snd (main args st)).
Proof.
  destruct (path_mkdir (output_dir args) (world st)) as [[[]|e] w0] eqn:Hmk.
  2: { unfold main, bind, call. rewrite Hmk. now apply extends_same_trace. }
  destruct (os_listdir (input_dir args) w0) as [[names|e] w1] eqn:Hls.
  2: { unfold main, get_video_files, bind, call. rewrite Hmk. simpl. rewrite Hls.
       now apply extends_same_trace. }
  destruct (filter (fun f => is_video_file f = true) names) as [|f fs] eqn:Hf.
  - unfold main, get_video_files, bind, call, ret, print, emit.
    rewrite Hmk. simpl. rewrite Hls. simpl. rewrite Hf. simpl.
    eexists [_]. split; [reflexivity | repeat constructor].
  - assert (Forall (fun f => is_video_file f = true) (f :: fs)) as Hall.
    { rewrite <- Hf. apply Forall_forall. intros x Hx.
      apply list_elem_of_filter in Hx. tauto. }
    rewrite (main_reports args st w0 names w1 Hmk Hls) by (rewrite Hf; discriminate).
    rewrite Hf.
    match goal with
    | |- context [main_loop args (f :: fs) 0 ?s] =>
        set (st1 := s);
        pose proof (main_loop_run_on_video args (f :: fs) 0 st1 Hall) as Hl
    end.
    assert (extends (run_on_video args) st st1) as H1.
    { eexists [_; _]. split; [reflexivity | repeat constructor]. }
    destruct (main_loop args (f :: fs) 0 st1) as [[[]|e] [k st2]]; simpl in *.
    + eapply extends_trans; [exact H1|]. eapply extends_trans; [exact Hl|].
      eexists [_]. split; [reflexivity | repeat constructor].
    + eapply extends_trans; [exact H1 | exact Hl].
Qed.

(** X14: an exception that leaves the loop body at one file ends the loop:
    the result is that exception and the state is the one that file left,
    whatever files follow (none of them is processed), and the success
    counter keeps the value it had after the files before. *)
Theorem main_loop_stops_at_exception args pre filename suf c st e :
  fst (main_loop args pre c st) = Ok tt ->
  fst (loop_body args filename (fst (snd (main_loop args pre c st)))
         (snd (snd (main_loop args pre c st)))) = Raise e ->
  main_loop args (pre ++ filename :: suf) c st =
  (Raise e,
   snd (loop_body args filename (fst (snd (main_loop args pre c st)))
          (snd (snd (main_loop args pre c st))))) /\
  fst (snd (main_loop args (pre ++ filename :: suf) c st)) =
  fst (snd (main_loop args pre c st)).
Proof.
  intros Hpre Hf. rewrite main_loop_app.
  destruct (main_loop args pre c st) as [[[]|e0] [c1 st1]]; simpl in *; [|discriminate].
  assert (fst (snd (loop_body args filename c1 st1)) = c1) as Hc.
  { revert Hf. unfold loop_body. simpl.
    destruct (process_video _ _ _ _) as [[[|]|e1] st2]; simpl; try discriminate.
    reflexivity. }
  destruct (loop_body args filename c1 st1) as [[[]|e1] [c2 st2]]; simpl in *;
    [discriminate|].
  injection Hf as ->. subst c2. split; reflexivity.
Qed.

Lemma successes_cons b evs rs :
  successes ((b, evs) :: rs) = (if b then 1 else 0) + successes rs.
Proof.
  unfold successes. rewrite filter_cons. simpl.
  destruct b; case_decide; try congruence; simpl length; lia.
Qed.

Lemma loop_body_block args f c st :
  fst (loop_body args f c st) = Ok tt ->
  exists (b : bool) evs st',
    loop_body args f c st = (Ok tt, (c + (if b then 1 else 0), st')) /\
    trace st' = trace st ++ file_block f (b, evs) /\
    outcome_events (os_path_join (input_dir args) f)
      (os_path_join (output_dir args) f) (Ok b) evs.
Proof.
  unfold loop_body. simpl.
  set (st0 := {| world := world st; trace := trace st ++ [EvPrint (line_processing f)] |}).
  destruct (process_video_outcome (os_path_join (input_dir args) f)
              (os_path_join (output_dir args) f) (hwaccel args) st0)
    as (evs & Ht & Ho).
  destruct (process_video _ _ _ st0) as [[b|e] st1]; simpl in *; [|discriminate].
  intros _. exists b, evs. destruct b; simpl.
  - eexists. split; [reflexivity|]. split; [|exact Ho].
    simpl. rewrite Ht. unfold file_block. simpl. rewrite <- !app_assoc. reflexivity.
  - eexists. split; [f_equal; f_equal; lia|]. split; [|exact Ho].
    simpl. rewrite Ht. unfold file_block. simpl. rewrite <- !app_assoc. reflexivity.
Qed.

(** X15: when the loop completes, the trace it added is one block per file,
    in the order of the list: the progress line, the events of that file's
    [process_video] call (the encoder invocation alone for [True], exactly
    one printed reason, possibly after the invocation, for [False]), and the
    verdict line; the success counter has grown by the number of [True]
    verdicts. *)
Theorem main_loop_trace args files c st :
  fst (main_loop args files c st) = Ok tt ->
  exists rs,
    length rs = length files /\
    trace (snd (snd (main_loop args files c st))) =
      trace st ++ concat (zip_with file_block files rs) /\
    fst (snd (main_loop args files c st)) = c + successes rs /\
    Forall2 (fun f r => outcome_events (os_path_join (input_dir args) f)
                          (os_path_join (output_dir args) f) (Ok (fst r)) (snd r))
            files rs.
Proof.
  revert c st. induction files as [|f rest IH]; intros c st Hok.
  - exists []. simpl. rewrite app_nil_r. unfold successes. simpl.
    repeat split; [lia | constructor].
  - simpl in *.
    destruct (fst (loop_body args f c st)) as [[]|e] eqn:Hb.
    2: { destruct (loop_body args f c st) as [[[]|e0] [c1 st1]]; simpl in *; discriminate. }
    destruct (loop_body_block args f c st Hb) as (b & evs & st1 & Hl & Ht & Ho).
    rewrite Hl in *. destruct (IH _ _ Hok) as (rs & Hlen & Htr & Hc & Hall).
    exists ((b, evs) :: rs). split; [simpl; now rewrite Hlen|]. split; [|split].
    + rewrite Htr, Ht. simpl zip_with. simpl concat. now rewrite <- app_assoc.
    + rewrite Hc, successes_cons. lia.
    + constructor; assumption.
Qed.

(** X16: when the output directory can be made and the listing of the input
    directory holds no name that [is_video_file] accepts, [main] prints the
    error line and returns; nothing is probed or encoded (the world is the
    one the listing left). *)
Theorem main_without_video_files args st w0 names w1 :
  path_mkdir (output_dir args) (world st) = (Ok tt, w0) ->
  os_listdir (input_dir args) w0 = (Ok names, w1) ->
  Forall (fun f => is_video_file f = false) names ->
  main args st =
  (Ok tt, {| world := w1;
             trace := trace st ++
               [EvPrint ("错误: 输入目录 " +:+ input_dir args
                         +:+ " 中没有找到视频文件(mp4/mov)")] |}).
Proof.
  intros Hmk Hls Hnone.
  assert (filter (fun f => is_video_file f = true) names = []) as Hf.
  { clear Hls. induction Hnone as [|x l Hx _ IH]; [reflexivity|].
    rewrite filter_cons. case_decide; [congruence | exact IH]. }
  unfold main, get_video_files, bind, call, ret, print, emit.
  rewrite Hmk. simpl. rewrite Hls. simpl. rewrite Hf. reflexivity.
Qed.

End MoreFacts.

(** ** Runs of the two hosts *)

Lemma process_video_success_witness :
  process_video "in/clip.mp4" "out/clip.mp4" false Demo.start =
  (Ok true,
   @Build_state Demo.host tt
     (trace Demo.start ++
      [EvRun "in/clip.mp4" "out/clip.mp4"
         (output_kwargs "transpose=1,scale=720:1920:force_original_aspect_ratio=decrease"
            false "2024-05-01T10:00:00.000000Z") global_args true])).
Proof.
  apply (@process_video_success Demo.host "in/clip.mp4" "out/clip.mp4" false Demo.start
           1714557600 tt
           {| probe_streams :=
                Some [Demo.audio_stream; Demo.video_stream 1920 1080 Demo.portrait_tags] |}
           tt [Demo.audio_stream; Demo.video_stream 1920 1080 Demo.portrait_tags]
           (Demo.video_stream 1920 1080 Demo.portrait_tags)
           (output_kwargs
              "transpose=1,scale=720:1920:force_original_aspect_ratio=decrease"
              false "2024-05-01T10:00:00.000000Z") tt tt);
    reflexivity.
Defined.

Lemma build_kwargs_without_rotate_witness :
  @get_rotation Demo.host (Demo.video_stream 1920 1080 ∅) = Ok 0 /\
  @build_kwargs Demo.host (Demo.video_stream 1920 1080 ∅) true =
    Ok (output_kwargs (scale_filter 1280 1080) true
          (default "" ((∅ : gmap string string) !! "creation_time"))) /\
  (Demo.video_stream 1920 1080 ∅ !! "tags" = None ->
   (∅ : gmap string string) = ∅ /\
   get_creation_time (Demo.video_stream 1920 1080 ∅) = Ok "").
Proof.
  exact (@build_kwargs_without_rotate Demo.host (Demo.video_stream 1920 1080 ∅) true
           ∅ 1920 1080 1280 eq_refl eq_refl eq_refl eq_refl eq_refl).
Defined.

Lemma process_video_missing_width_witness :
  process_video "in/nowidth.mp4" "out/nowidth.mp4" false Faulty.start =
  (Raise (Exc KeyError "'width'"), @Build_state Faulty.host tt (trace Faulty.start)).
Proof.
  apply (@process_video_missing_width Faulty.host "in/nowidth.mp4" "out/nowidth.mp4" false
           Faulty.start 1714557600 tt
           {| probe_streams := Some [Faulty.stream_without_width] |} tt
           [Faulty.stream_without_width] Faulty.stream_without_width 0);
    reflexivity.
Defined.

Lemma process_video_probe_error_witness :
  process_video "in/corrupt.mp4" "out/corrupt.mp4" false Faulty.start =
  (Ok false,
   @Build_state Faulty.host tt
     (trace Faulty.start ++ [EvPrint (line_error "in/corrupt.mp4" "moov atom not found")])).
Proof.
  apply (@process_video_probe_error Faulty.host "in/corrupt.mp4" "out/corrupt.mp4" false
           Faulty.start 1714557600 tt "moov atom not found" "moov atom not found" tt);
    reflexivity.
Defined.

Lemma process_video_encode_failure_witness :
  fst (process_video "in/silent.mp4" "out/silent.mp4" false Faulty.start) <> Ok true /\
  fst (process_video "in/silent.mp4" "out/silent.mp4" false Faulty.start) =
    Raise (Exc AttributeError "'NoneType' object has no attribute 'decode'") /\
  printed (trace (snd (process_video "in/silent.mp4" "out/silent.mp4" false Faulty.start)))
    = [].
Proof.
  pose proof (@process_video_encode_failure Faulty.host "in/silent.mp4"
           "out/silent.mp4" false Faulty.start 1714557600 tt
           {| probe_streams := Some [Demo.audio_stream; Demo.video_stream 1920 1080 ∅] |}
           tt [Demo.audio_stream; Demo.video_stream 1920 1080 ∅]
           (Demo.video_stream 1920 1080 ∅)
           (output_kwargs "scale=1280:1080:force_original_aspect_ratio=decrease" false "")
           (ffmpeg_Error None) tt
           eq_refl eq_refl eq_refl eq_refl eq_refl eq_refl) as (Hne & _ & _ & _).
  split; [exact Hne|]. split; reflexivity.
Defined.

Lemma process_video_encode_error_uncaptured_witness :
  process_video "in/silent.mp4" "out/silent.mp4" false Faulty.start =
  (Raise (Exc AttributeError "'NoneType' object has no attribute 'decode'"),
   @Build_state Faulty.host tt
     (trace Faulty.start ++
      [EvRun "in/silent.mp4" "out/silent.mp4"
         (output_kwargs "scale=1280:1080:force_original_aspect_ratio=decrease" false "")
         global_args true])).
Proof.
  apply (@process_video_encode_error_uncaptured Faulty.host "in/silent.mp4"
           "out/silent.mp4" false Faulty.start 1714557600 tt
           {| probe_streams := Some [Demo.audio_stream; Demo.video_stream 1920 1080 ∅] |}
           tt [Demo.audio_stream; Demo.video_stream 1920 1080 ∅]
           (Demo.video_stream 1920 1080 ∅)
           (output_kwargs "scale=1280:1080:force_original_aspect_ratio=decrease" false "")
           tt);
    reflexivity.
Defined.

(** The listing of the second host: [good.mp4], [silent.mp4], [later.mov]. *)
Lemma main_loop_stops_at_exception_witness :
  fst (main_loop (Demo.args "in") ["good.mp4"; "silent.mp4"; "later.mov"] 0 Faulty.start) =
    Raise (Exc AttributeError "'NoneType' object has no attribute 'decode'") /\
  fst (snd (main_loop (Demo.args "in") ["good.mp4"; "silent.mp4"; "later.mov"] 0
              Faulty.start)) = 1 /\
  encoder_calls
    (trace (snd (snd (main_loop (Demo.args "in") ["good.mp4"; "silent.mp4"; "later.mov"] 0
                        Faulty.start)))) =
    [("in/good.mp4", "out/good.mp4",
      Some (PStr "scale=1280:1080:force_original_aspect_ratio=decrease"),
      Some (PStr "libx264"), Some (PStr "rotate=0"));
     ("in/silent.mp4", "out/silent.mp4",
      Some (PStr "scale=1280:1080:force_original_aspect_ratio=decrease"),
      Some (PStr "libx264"), Some (PStr "rotate=0"))].
Proof.
  destruct (@main_loop_stops_at_exception Faulty.host (Demo.args "in") ["good.mp4"]
              "silent.mp4" ["later.mov"] 0 Faulty.start
              (Exc AttributeError "'NoneType' object has no attribute 'decode'"))
    as [Hr Hc]; [vm_compute; reflexivity | vm_compute; reflexivity |].
  change (["good.mp4"] ++ "silent.mp4" :: ["later.mov"])
    with ["good.mp4"; "silent.mp4"; "later.mov"] in *.
  split; [|split].
  - now rewrite Hr.
  - rewrite Hc. vm_compute. reflexivity.
  - rewrite Hr. vm_compute. reflexivity.
Defined.

Lemma main_loop_trace_witness :
  exists rs,
    length rs = 2%nat /\
    trace (snd (snd (main_loop (Demo.args "in") ["voice.mov"; "clip.mp4"] 0 Demo.start))) =
      trace Demo.start ++ concat (zip_with file_block ["voice.mov"; "clip.mp4"] rs) /\
    fst (snd (main_loop (Demo.args "in") ["voice.mov"; "clip.mp4"] 0 Demo.start)) =
      0 + successes rs /\
    Forall2 (fun f r => outcome_events
                          (@os_path_join Demo.host (input_dir (Demo.args "in")) f)
                          (@os_path_join Demo.host (output_dir (Demo.args "in")) f)
                          (Ok (fst r)) (snd r))
            ["voice.mov"; "clip.mp4"] rs.
Proof.
  apply (@main_loop_trace Demo.host (Demo.args "in") ["voice.mov"; "clip.mp4"] 0
           Demo.start).
  vm_compute. reflexivity.
Defined.

Lemma main_without_video_files_witness :
  main (Demo.args "docs") Faulty.start =
  (Ok tt,
   @Build_state Faulty.host tt
     (trace Faulty.start ++
      [EvPrint "错误: 输入目录 docs 中没有找到视频文件(mp4/mov)"])).
Proof.
  apply (@main_without_video_files Faulty.host (Demo.args "docs") Faulty.start tt
           ["notes.txt"; "song.mp3"; "mp4"] tt); [reflexivity | reflexivity |].
  repeat constructor.
Defined.
